(** * azure-infra-core: the VM provisioning transaction and its rollback

    A shallow embedding of [src/virtual_environment.py] ([create_vm] and
    [rollback_resources]).  The Azure management clients, the file system
    and [os.path] are the environment: they are an interface ([Cloud]) whose
    answers the program cannot choose.  The program itself is written in a
    small state-and-exception monad whose state holds the environment, the
    local list [created_resources], the calls issued so far and what was
    printed. *)

From Stdlib Require Import ZArith String.
From stdpp Require Import gmap strings list.

Local Open Scope string_scope.
Local Open Scope list_scope.

(** ** Values *)

(** What [json.load] produces: the configuration [cfg] is such a value.
    Objects are Python dicts keyed by strings. *)
#[warnings="-register-all"]
Inductive json :=
| JNull
| JBool (b : bool)
| JInt (z : Z)
| JFloat (literal : string)
| JStr (s : string)
| JArr (items : list json)
| JObj (fields : gmap string json).

(** The model object an Azure long-running operation returns from
    [.result()]; the program only reads its [.id]. *)
Record handle := Handle { handle_id : string }.

(** A Python value held in a local variable of [create_vm]: either a value
    that came from the configuration or a returned model object. *)
Inductive value :=
| VJson (j : json)
| VObj (h : handle).

(** Python's [None]. *)
Definition PyNone : value := VJson JNull.

(** ** Exceptions and results *)

Inductive exn :=
| KeyError (key : string)
| TypeError (msg : string)
| OSError (msg : string)
| ProviderError (code msg : string).

Inductive result (A : Type) :=
| Ok (a : A)
| Raise (e : exn).
Arguments Ok {A} a.
Arguments Raise {A} e.

Definition result_bind {A B} (r : result A) (f : A → result B) : result B :=
  match r with
  | Ok a => f a
  | Raise e => Raise e
  end.

(** [v[k]] for a string key [k]. *)
Definition subscript (v : json) (k : string) : result json :=
  match v with
  | JObj fields =>
      match fields !! k with
      | Some x => Ok x
      | None => Raise (KeyError k)
      end
  | JStr _ => Raise (TypeError "string indices must be integers")
  | JArr _ => Raise (TypeError "list indices must be integers or slices, not str")
  | _ => Raise (TypeError "object is not subscriptable")
  end.

(** [v[k1][k2]]. *)
Definition subscript2 (v : json) (k1 k2 : string) : result json :=
  result_bind (subscript v k1) (λ inner, subscript inner k2).

(** ** The calls of the management clients *)

(** The [vm_parameters] dict of [create_vm]: the fields that vary, and the
    fixed image reference and disk type.  [vp_authorized_keys_user] is the
    value interpolated into the key path
    [/home/{admin_username}/.ssh/authorized_keys]. *)
Record vm_parameters := VmParameters {
  vp_location : json;
  vp_vm_size : json;
  vp_image_publisher : string;
  vp_image_offer : string;
  vp_image_sku : string;
  vp_image_version : string;
  vp_storage_account_type : string;
  vp_computer_name : json;
  vp_admin_username : json;
  vp_disable_password_authentication : bool;
  vp_authorized_keys_user : json;
  vp_ssh_key_data : string;
  vp_network_interface_id : string
}.

(** The keyword arguments [create_vm] passes to the constructor of the SDK
    model class [IPConfiguration] (lines 103 to 108): [name], [subnet],
    [public_ip_address] and [network_security_group], the last three each
    an object holding one identifier. *)
Record ip_configuration_keywords := IpConfigurationKeywords {
  kw_name : string;
  kw_subnet_id : string;
  kw_public_ip_address_id : string;
  kw_network_security_group_id : string
}.

(** The object that constructor returns, as far as the network interface
    request reads it: the class [IPConfiguration] of the SDK, which is not
    part of this repository, declares [name], [subnet] and
    [public_ip_address] and no field for a network security group. *)
Record ip_configuration := IpConfiguration {
  ipc_name : string;
  ipc_subnet_id : string;
  ipc_public_ip_address_id : string
}.

(** One constructor per client method: [resource_groups.create_or_update],
    the [begin_create_or_update(...).result()] of each resource kind and the
    [begin_delete(...).result()] of each kind.  A call blocks until the
    operation is over and either returns the model object or raises.  The
    network interface request carries the IP configuration object it was
    given. *)
Inductive request :=
| RG_create_or_update (rg location : json)
| RG_delete (rg : value)
| VNet_create (rg name location : json)
| Subnet_create (rg vnet name : json)
| NSG_create (rg name location : json)
| PublicIP_create (rg name location : json)
| NIC_create (rg name location : json) (ipc : ip_configuration)
| VM_create (rg name : json) (parameters : vm_parameters)
| VM_delete (rg : json) (name : value)
| NIC_delete (rg : json) (name : value)
| PublicIP_delete (rg : json) (name : value)
| NSG_delete (rg : json) (name : value)
| Subnet_delete (rg : json) (vnet name : value)
| VNet_delete (rg : json) (name : value).

(** The environment: how the cloud answers a call, what reading a file
    gives, the two string functions of the Python library, and what the
    installed SDK makes of the keywords given to [IPConfiguration]: it
    returns an object or raises. *)
Class Cloud (World : Type) := {
  perform : request → World → result handle * World;
  open_read : string → World → result string * World;
  expanduser : string → string;
  strip : string → string;
  ip_configuration_init : ip_configuration_keywords → result ip_configuration
}.

(** ** What is printed *)

Inductive output :=
| OutStarting (vm_name location : json)
| OutEnsuringResourceGroup (rg : json)
| OutCreatingVNet
| OutCreatingSubnet
| OutCreatingNSG
| OutCreatingPublicIP
| OutCreatingNIC
| OutDefiningVM
| OutCreatingVM (vm_name : json)
| OutCreated (vm_name location : json)
| OutError (e : exn)
| OutRollingBack
| OutDeleting (rtype : string) (name : value)
| OutFailedToDelete (rtype : string) (name : value) (ex : exn)
| OutRollbackComplete.

(** ** The monad *)

Section Program.
Context {World : Type} `{!Cloud World}.

Record state := State {
  world : World;
  created_resources : list (string * value);
  calls : list (request * result handle);
  stdout : list output
}.

Definition M (A : Type) : Type := state → result A * state.

Definition ret {A} (a : A) : M A := λ s, (Ok a, s).

Definition raise {A} (e : exn) : M A := λ s, (Raise e, s).

Definition bind {A B} (m : M A) (f : A → M B) : M B :=
  λ s, match m s with
       | (Ok a, s') => f a s'
       | (Raise e, s') => (Raise e, s')
       end.

Definition try_except {A} (body : M A) (handler : exn → M A) : M A :=
  λ s, match body s with
       | (Ok a, s') => (Ok a, s')
       | (Raise e, s') => handler e s'
       end.

Definition lift {A} (r : result A) : M A := λ s, (r, s).

Definition print (o : output) : M unit :=
  λ s, (Ok tt, State (world s) (created_resources s) (calls s) (stdout s ++ [o])).

(** [created_resources.append(entry)] *)
Definition append_created (entry : string * value) : M unit :=
  λ s, (Ok tt, State (world s) (created_resources s ++ [entry]) (calls s) (stdout s)).

(** [created_resources = []] *)
Definition reset_created : M unit :=
  λ s, (Ok tt, State (world s) [] (calls s) (stdout s)).

Definition get_created : M (list (string * value)) :=
  λ s, (Ok (created_resources s), s).

(** A client call; the call and its outcome are appended to [calls]. *)
Definition call (r : request) : M handle :=
  λ s, let (res, w) := perform r (world s) in
       (res, State w (created_resources s) (calls s ++ [(r, res)]) (stdout s)).

(** [with open(path, "r") as f: f.read().strip()] *)
Definition read_stripped (path : string) : M string :=
  λ s, let (res, w) := open_read path (world s) in
       (match res with Ok data => Ok (strip data) | Raise e => Raise e end,
        State w (created_resources s) (calls s) (stdout s)).

End Program.

Arguments state World : clear implicits.
Arguments M World A : clear implicits.

Declare Scope prog_scope.
Delimit Scope prog_scope with prog.
Bind Scope prog_scope with M.
Notation "x ← m ; k" := (bind m (λ x, k))
  (at level 20, m at level 100, k at level 200, only parsing) : prog_scope.
Notation "m ;; k" := (bind m (λ _, k))
  (at level 100, k at level 200, right associativity, only parsing) : prog_scope.

(** ** rollback_resources *)

Section Rollback.
Context {World : Type} `{!Cloud World}.
Local Open Scope prog_scope.

(** The body of the [try] inside the loop of [rollback_resources], for one
    entry [(rtype, name)]: the print and the [if]/[elif] chain.  The
    ["subnet"] branch is the [continue]; an [rtype] that matches no branch
    falls through. *)
Definition delete_entry (rg_name : json) (rtype : string) (name : value) : M World unit :=
  print (OutDeleting rtype name);;
  if String.eqb rtype "vm" then
    _ ← call (VM_delete rg_name name); ret tt
  else if String.eqb rtype "nic" then
    _ ← call (NIC_delete rg_name name); ret tt
  else if String.eqb rtype "public_ip" then
    _ ← call (PublicIP_delete rg_name name); ret tt
  else if String.eqb rtype "nsg" then
    _ ← call (NSG_delete rg_name name); ret tt
  else if String.eqb rtype "subnet" then
    ret tt
  else if String.eqb rtype "vnet" then
    _ ← call (VNet_delete rg_name name); ret tt
  else
    ret tt.

(** The [for] loop, over the entries in the order they are visited. *)
Fixpoint rollback_loop (rg_name : json) (entries : list (string * value)) : M World unit :=
  match entries with
  | [] => ret tt
  | (rtype, name) :: rest =>
      try_except (delete_entry rg_name rtype name)
                 (λ ex, print (OutFailedToDelete rtype name ex));;
      rollback_loop rg_name rest
  end.

(** [rollback_resources(resource_client, network_client, compute_client,
    rg_name, created_resources)]: the clients are the [Cloud]; the function
    has no [return], so it returns [None]. *)
Definition rollback_resources (rg_name : json) (created : list (string * value))
  : M World value :=
  rollback_loop rg_name (reverse created);;
  print OutRollbackComplete;;
  ret PyNone.

End Rollback.

(** ** create_vm *)

(** The local variables [create_vm] reads from [cfg] before it does
    anything else, under their names in the source. *)
Record locals := Locals {
  subscription_id : json;
  resource_group : json;
  location : json;
  vm_name : json;
  vm_size : json;
  admin_username : json;
  ssh_key_path : string;
  virtual_network : json;
  sub_network : json;
  network_security_grp : json;
  public_ip : json;
  network_interface : json
}.

Section CreateVm.
Context {World : Type} `{!Cloud World}.
Local Open Scope prog_scope.

(** [os.path.expanduser(p)]: a [TypeError] unless [p] is a string. *)
Definition os_path_expanduser (p : json) : result string :=
  match p with
  | JStr s => Ok (expanduser s)
  | _ => Raise (TypeError "expected str, bytes or os.PathLike object")
  end.

(** Lines 23 to 34: the twelve reads of [cfg], in order. *)
Definition read_config (cfg : json) : result locals :=
  result_bind (subscript cfg "subscription_id") (λ subscription_id,
  result_bind (subscript2 cfg "resource_group" "name") (λ resource_group,
  result_bind (subscript2 cfg "resource_group" "location") (λ location,
  result_bind (subscript2 cfg "vm" "name") (λ vm_name,
  result_bind (subscript2 cfg "vm" "size") (λ vm_size,
  result_bind (subscript2 cfg "vm" "admin_username") (λ admin_username,
  result_bind (result_bind (subscript2 cfg "vm" "ssh_public_key_path")
                           os_path_expanduser) (λ ssh_key_path,
  result_bind (subscript2 cfg "vm" "virtual_network") (λ virtual_network,
  result_bind (subscript2 cfg "vm" "sub_network") (λ sub_network,
  result_bind (subscript2 cfg "vm" "network_security_grp") (λ network_security_grp,
  result_bind (subscript2 cfg "vm" "public_ip") (λ public_ip,
  result_bind (subscript2 cfg "vm" "network_interface") (λ network_interface,
  Ok (Locals subscription_id resource_group location vm_name vm_size
             admin_username ssh_key_path virtual_network sub_network
             network_security_grp public_ip network_interface))))))))))))).

(** Lines 119 to 151. *)
Definition make_vm_parameters (l : locals) (ssh_key_data : string) (nic : handle)
  : vm_parameters :=
  {| vp_location := location l;
     vp_vm_size := vm_size l;
     vp_image_publisher := "Canonical";
     vp_image_offer := "UbuntuServer";
     vp_image_sku := "22_04-lts-gen2";
     vp_image_version := "latest";
     vp_storage_account_type := "StandardSSD_LRS";
     vp_computer_name := vm_name l;
     vp_admin_username := admin_username l;
     vp_disable_password_authentication := true;
     vp_authorized_keys_user := admin_username l;
     vp_ssh_key_data := ssh_key_data;
     vp_network_interface_id := handle_id nic |}.

(** The body of the [try], lines 46 to 161.  The assignment on line 90
    rebinds the local [public_ip] to the returned object, and line 94
    appends that variable.  The arguments of the network interface call
    are evaluated before the call: the [IPConfiguration] is built first,
    and an exception of its constructor is raised inside the [try]. *)
Definition create_vm_body (l : locals) : M World unit :=
  print (OutEnsuringResourceGroup (resource_group l));;
  _ ← call (RG_create_or_update (resource_group l) (location l));
  print OutCreatingVNet;;
  vnet ← call (VNet_create (resource_group l) (virtual_network l) (location l));
  append_created ("vnet", VJson (virtual_network l));;
  print OutCreatingSubnet;;
  subnet ← call (Subnet_create (resource_group l) (virtual_network l) (sub_network l));
  append_created ("subnet", VJson (sub_network l));;
  print OutCreatingNSG;;
  nsg ← call (NSG_create (resource_group l) (network_security_grp l) (location l));
  append_created ("nsg", VJson (network_security_grp l));;
  print OutCreatingPublicIP;;
  public_ip ← call (PublicIP_create (resource_group l) (public_ip l) (location l));
  append_created ("public_ip", VObj public_ip);;
  print OutCreatingNIC;;
  ip_configuration ←
    lift (ip_configuration_init
            {| kw_name := "ipconfig1";
               kw_subnet_id := handle_id subnet;
               kw_public_ip_address_id := handle_id public_ip;
               kw_network_security_group_id := handle_id nsg |});
  nic ← call (NIC_create (resource_group l) (network_interface l) (location l)
                ip_configuration);
  append_created ("nic", VJson (network_interface l));;
  print OutDefiningVM;;
  ssh_key_data ← read_stripped (ssh_key_path l);
  print (OutCreatingVM (vm_name l));;
  _ ← call (VM_create (resource_group l) (vm_name l)
              (make_vm_parameters l ssh_key_data nic));
  append_created ("vm", VJson (vm_name l));;
  print (OutCreated (vm_name l) (location l)).

(** The [except Exception as e] clause, lines 163 to 170. *)
Definition create_vm_handler (l : locals) (e : exn) : M World value :=
  print (OutError e);;
  print OutRollingBack;;
  created ← get_created;
  _ ← rollback_resources (resource_group l) created;
  raise e.

(** [create_vm(cfg)].  Building the credential and the three clients
    (lines 38 to 41) sends nothing to the cloud; the clients are the
    [Cloud].  These four constructors sit between the starting line and
    the [try]: the runs described here are those in which they return, and
    a run in which one of them raises ends there, with the starting line
    printed and no call issued.  A run that leaves the [try] normally
    reaches the end of the function and returns [None]. *)
Definition create_vm (cfg : json) : M World value :=
  l ← lift (read_config cfg);
  print (OutStarting (vm_name l) (location l));;
  reset_created;;
  try_except (create_vm_body l;; ret PyNone) (create_vm_handler l).

(** The state in which a run starts. *)
Definition initial (w : World) : state World := State w [] [] [].

End CreateVm.

(** ** Reading a run *)

(** The six resource kinds in the order [create_vm] creates them, as the
    strings it appends to [created_resources]. *)
Definition step_kinds : list string :=
  ["vnet"; "subnet"; "nsg"; "public_ip"; "nic"; "vm"].

(** The step (1 to 6) a creation call belongs to. *)
Definition step_of_request (r : request) : option nat :=
  match r with
  | VNet_create _ _ _ => Some 1
  | Subnet_create _ _ _ => Some 2
  | NSG_create _ _ _ => Some 3
  | PublicIP_create _ _ _ => Some 4
  | NIC_create _ _ _ _ => Some 5
  | VM_create _ _ _ => Some 6
  | _ => None
  end%nat.

(** The kind and the name a delete call is issued for. *)
Definition delete_target (r : request) : option (string * value) :=
  match r with
  | RG_delete name => Some ("resource_group", name)
  | VM_delete _ name => Some ("vm", name)
  | NIC_delete _ name => Some ("nic", name)
  | PublicIP_delete _ name => Some ("public_ip", name)
  | NSG_delete _ name => Some ("nsg", name)
  | Subnet_delete _ _ name => Some ("subnet", name)
  | VNet_delete _ name => Some ("vnet", name)
  | _ => None
  end.

Definition is_resource_group_request (r : request) : bool :=
  match r with
  | RG_create_or_update _ _ | RG_delete _ => true
  | _ => false
  end.

(** The first creation step whose call raised, with what it raised. *)
Fixpoint first_failed_step (tr : list (request * result handle)) : option (nat * exn) :=
  match tr with
  | [] => None
  | (r, Raise e) :: rest =>
      match step_of_request r with
      | Some k => Some (k, e)
      | None => first_failed_step rest
      end
  | (_, Ok _) :: rest => first_failed_step rest
  end.

(** The creation steps whose call returned, in the order of the calls. *)
Definition succeeded_steps (tr : list (request * result handle)) : list nat :=
  omap (λ ev, match ev.2 with
              | Ok _ => step_of_request ev.1
              | Raise _ => None
              end) tr.

(** The kinds of the delete calls issued, in the order of the calls. *)
Definition deleted_kinds (tr : list (request * result handle)) : list string :=
  omap (λ r, fst <$> delete_target r) tr.*1.

(** The delete calls that raised: kind, name and exception. *)
Definition failed_deletions (tr : list (request * result handle))
  : list (string * value * exn) :=
  omap (λ ev, match ev.2 with
              | Raise ex => (λ t, (t, ex)) <$> delete_target ev.1
              | Ok _ => None
              end) tr.

(** The lines [rollback_resources] prints, read back. *)
Definition deleting_lines (out : list output) : list (string * value) :=
  omap (λ o, match o with OutDeleting rtype name => Some (rtype, name) | _ => None end) out.

Definition failed_lines (out : list output) : list (string * value * exn) :=
  omap (λ o, match o with
             | OutFailedToDelete rtype name ex => Some (rtype, name, ex)
             | _ => None
             end) out.

(** The call [rollback_resources] issues for an entry, if any: the
    [if]/[elif] chain of [delete_entry] as a table. *)
Definition delete_request (rg_name : json) (entry : string * value) : option request :=
  let (rtype, name) := entry in
  if String.eqb rtype "vm" then Some (VM_delete rg_name name)
  else if String.eqb rtype "nic" then Some (NIC_delete rg_name name)
  else if String.eqb rtype "public_ip" then Some (PublicIP_delete rg_name name)
  else if String.eqb rtype "nsg" then Some (NSG_delete rg_name name)
  else if String.eqb rtype "subnet" then None
  else if String.eqb rtype "vnet" then Some (VNet_delete rg_name name)
  else None.

(** ** The runs of the body of the [try]

    The calls of the body, each as a function of the configuration and of
    the objects earlier calls returned, and the entries it appends. *)
Definition rg_call (l : locals) : request :=
  RG_create_or_update (resource_group l) (location l).
Definition vnet_call (l : locals) : request :=
  VNet_create (resource_group l) (virtual_network l) (location l).
Definition subnet_call (l : locals) : request :=
  Subnet_create (resource_group l) (virtual_network l) (sub_network l).
Definition nsg_call (l : locals) : request :=
  NSG_create (resource_group l) (network_security_grp l) (location l).
Definition public_ip_call (l : locals) : request :=
  PublicIP_create (resource_group l) (public_ip l) (location l).
Definition nic_keywords (subnet pip nsg : handle) : ip_configuration_keywords :=
  IpConfigurationKeywords "ipconfig1" (handle_id subnet) (handle_id pip) (handle_id nsg).
Definition nic_call (l : locals) (ipc : ip_configuration) : request :=
  NIC_create (resource_group l) (network_interface l) (location l) ipc.
Definition vm_call {World} `{!Cloud World} (l : locals) (key : string) (nic : handle)
  : request :=
  VM_create (resource_group l) (vm_name l) (make_vm_parameters l key nic).

Definition vnet_entry (l : locals) : string * value := ("vnet", VJson (virtual_network l)).
Definition subnet_entry (l : locals) : string * value := ("subnet", VJson (sub_network l)).
Definition nsg_entry (l : locals) : string * value :=
  ("nsg", VJson (network_security_grp l)).
Definition public_ip_entry (pip : handle) : string * value := ("public_ip", VObj pip).
Definition nic_entry (l : locals) : string * value := ("nic", VJson (network_interface l)).
Definition vm_entry (l : locals) : string * value := ("vm", VJson (vm_name l)).

(** The ten ways the body can run: the calls issued with their outcomes,
    the entries appended to [created_resources], and how the body ends. *)
Inductive body_run {World} `{!Cloud World} (l : locals) :
  list (request * result handle) → list (string * value) → result unit → Prop :=
| ResourceGroupRaises e :
    body_run l [(rg_call l, Raise e)] [] (Raise e)
| VNetRaises rg e :
    body_run l [(rg_call l, Ok rg); (vnet_call l, Raise e)] [] (Raise e)
| SubnetRaises rg vnet e :
    body_run l
      [(rg_call l, Ok rg); (vnet_call l, Ok vnet); (subnet_call l, Raise e)]
      [vnet_entry l] (Raise e)
| NSGRaises rg vnet subnet e :
    body_run l
      [(rg_call l, Ok rg); (vnet_call l, Ok vnet); (subnet_call l, Ok subnet);
       (nsg_call l, Raise e)]
      [vnet_entry l; subnet_entry l] (Raise e)
| PublicIPRaises rg vnet subnet nsg e :
    body_run l
      [(rg_call l, Ok rg); (vnet_call l, Ok vnet); (subnet_call l, Ok subnet);
       (nsg_call l, Ok nsg); (public_ip_call l, Raise e)]
      [vnet_entry l; subnet_entry l; nsg_entry l] (Raise e)
| IpConfigurationRaises rg vnet subnet nsg pip e :
    ip_configuration_init (nic_keywords subnet pip nsg) = Raise e →
    body_run l
      [(rg_call l, Ok rg); (vnet_call l, Ok vnet); (subnet_call l, Ok subnet);
       (nsg_call l, Ok nsg); (public_ip_call l, Ok pip)]
      [vnet_entry l; subnet_entry l; nsg_entry l; public_ip_entry pip] (Raise e)
| NICRaises rg vnet subnet nsg pip ipc e :
    ip_configuration_init (nic_keywords subnet pip nsg) = Ok ipc →
    body_run l
      [(rg_call l, Ok rg); (vnet_call l, Ok vnet); (subnet_call l, Ok subnet);
       (nsg_call l, Ok nsg); (public_ip_call l, Ok pip);
       (nic_call l ipc, Raise e)]
      [vnet_entry l; subnet_entry l; nsg_entry l; public_ip_entry pip] (Raise e)
| KeyFileRaises rg vnet subnet nsg pip ipc nic e :
    ip_configuration_init (nic_keywords subnet pip nsg) = Ok ipc →
    body_run l
      [(rg_call l, Ok rg); (vnet_call l, Ok vnet); (subnet_call l, Ok subnet);
       (nsg_call l, Ok nsg); (public_ip_call l, Ok pip);
       (nic_call l ipc, Ok nic)]
      [vnet_entry l; subnet_entry l; nsg_entry l; public_ip_entry pip; nic_entry l]
      (Raise e)
| VMRaises rg vnet subnet nsg pip ipc nic key e :
    ip_configuration_init (nic_keywords subnet pip nsg) = Ok ipc →
    body_run l
      [(rg_call l, Ok rg); (vnet_call l, Ok vnet); (subnet_call l, Ok subnet);
       (nsg_call l, Ok nsg); (public_ip_call l, Ok pip);
       (nic_call l ipc, Ok nic); (vm_call l key nic, Raise e)]
      [vnet_entry l; subnet_entry l; nsg_entry l; public_ip_entry pip; nic_entry l]
      (Raise e)
| AllCreated rg vnet subnet nsg pip ipc nic key vm :
    ip_configuration_init (nic_keywords subnet pip nsg) = Ok ipc →
    body_run l
      [(rg_call l, Ok rg); (vnet_call l, Ok vnet); (subnet_call l, Ok subnet);
       (nsg_call l, Ok nsg); (public_ip_call l, Ok pip);
       (nic_call l ipc, Ok nic); (vm_call l key nic, Ok vm)]
      [vnet_entry l; subnet_entry l; nsg_entry l; public_ip_entry pip; nic_entry l;
       vm_entry l]
      (Ok tt).

(** ** Reading a request and a configuration *)

Definition json_strings (j : json) : list string :=
  match j with
  | JStr s => [s]
  | _ => []
  end.

Definition value_strings (v : value) : list string :=
  match v with
  | VJson j => json_strings j
  | VObj h => [handle_id h]
  end.

(** Every string a call is issued with: the names taken from the
    configuration and the identifiers of returned objects. *)
Definition request_strings (r : request) : list string :=
  match r with
  | RG_create_or_update rg location => json_strings rg ++ json_strings location
  | RG_delete rg => value_strings rg
  | VNet_create rg name location
  | NSG_create rg name location
  | PublicIP_create rg name location =>
      json_strings rg ++ json_strings name ++ json_strings location
  | Subnet_create rg vnet name =>
      json_strings rg ++ json_strings vnet ++ json_strings name
  | NIC_create rg name location ipc =>
      json_strings rg ++ json_strings name ++ json_strings location
        ++ [ipc_name ipc; ipc_subnet_id ipc; ipc_public_ip_address_id ipc]
  | VM_create rg name p =>
      json_strings rg ++ json_strings name ++ json_strings (vp_location p)
        ++ json_strings (vp_vm_size p) ++ json_strings (vp_computer_name p)
        ++ json_strings (vp_admin_username p)
        ++ [vp_ssh_key_data p; vp_network_interface_id p]
  | VM_delete rg name
  | NIC_delete rg name
  | PublicIP_delete rg name
  | NSG_delete rg name
  | VNet_delete rg name => json_strings rg ++ value_strings name
  | Subnet_delete rg vnet name =>
      json_strings rg ++ value_strings vnet ++ value_strings name
  end.

(** A call is wired with a returned object when it carries that object's
    identifier. *)
Definition uses_handle (r : request) (h : handle) : Prop :=
  handle_id h ∈ request_strings r.

(** A returned Python value contains the identifier of [h] when it is the
    object itself or its [.id]. *)
Definition contains_identifier (v : value) (h : handle) : Prop :=
  v = VObj h ∨ v = VJson (JStr (handle_id h)).

(** [cfg[k1][k2]...] when every key is there. *)
Fixpoint get_path (v : json) (path : list string) : option json :=
  match path with
  | [] => Some v
  | k :: rest =>
      match v with
      | JObj fields =>
          match fields !! k with
          | Some inner => get_path inner rest
          | None => None
          end
      | _ => None
      end
  end.

(** The twelve fields [create_vm] reads. *)
Definition required_fields : list (list string) :=
  [["subscription_id"];
   ["resource_group"; "name"]; ["resource_group"; "location"];
   ["vm"; "name"]; ["vm"; "size"]; ["vm"; "admin_username"];
   ["vm"; "ssh_public_key_path"]; ["vm"; "virtual_network"];
   ["vm"; "sub_network"]; ["vm"; "network_security_grp"];
   ["vm"; "public_ip"]; ["vm"; "network_interface"]].

Definition is_string (v : json) : bool :=
  match v with
  | JStr _ => true
  | _ => false
  end.

(** How the calls of a run of [create_vm cfg] are wired.  The three
    arguments of the subnet call are values of [cfg]: the virtual network
    is named, no returned object is used.  The IP configuration of the
    NIC call is what the SDK built from keywords holding, under [subnet]
    and [public_ip_address], the identifiers of the objects the subnet and
    public IP calls of the run returned.  The VM call names as its network
    interface the identifier of the object the NIC call returned. *)
Definition wired {World} `{!Cloud World} (cfg : json)
    (tr : list (request * result handle)) (ev : request * result handle) : Prop :=
  match ev.1 with
  | Subnet_create rg vnet name =>
      get_path cfg ["resource_group"; "name"] = Some rg ∧
      get_path cfg ["vm"; "virtual_network"] = Some vnet ∧
      get_path cfg ["vm"; "sub_network"] = Some name
  | NIC_create _ _ _ ipc =>
      ∃ r2 subnet r4 pip nsg_id,
        (r2, Ok subnet) ∈ tr ∧ step_of_request r2 = Some 2%nat ∧
        (r4, Ok pip) ∈ tr ∧ step_of_request r4 = Some 4%nat ∧
        ip_configuration_init
          (IpConfigurationKeywords "ipconfig1" (handle_id subnet) (handle_id pip) nsg_id)
        = Ok ipc
  | VM_create _ _ p =>
      ∃ r5 nic,
        (r5, Ok nic) ∈ tr ∧ step_of_request r5 = Some 5%nat ∧
        vp_network_interface_id p = handle_id nic
  | _ => True
  end.

(** The lines only the [except] clause and [rollback_resources] print. *)
Definition is_rollback_line (o : output) : bool :=
  match o with
  | OutError _ | OutRollingBack | OutDeleting _ _ | OutFailedToDelete _ _ _
  | OutRollbackComplete => true
  | _ => false
  end.

(** ** A simulated cloud

    A deterministic environment used to run the program on concrete
    inputs: creation step [fail_step] raises (0 is the resource-group
    call, 7 and above is none), deleting a kind listed in [busy] raises,
    and the key file has the content [key_file], if any.  Its
    [IPConfiguration] keeps the keywords the class declares and ignores
    the other. *)
Module Sim.

Record world := MkWorld {
  fail_step : nat;
  busy : list string;
  key_file : option string
}.

Definition quota : exn := ProviderError "QuotaExceeded" "quota exceeded".
Definition resource_busy : exn := ProviderError "InUse" "resource busy".
Definition no_such_file : exn := OSError "No such file or directory".

Definition created (w : world) (step : nat) (id : string) : result handle * world :=
  (if Nat.eqb (fail_step w) step then Raise quota else Ok (Handle id), w).

Definition deleted (w : world) (rtype : string) : result handle * world :=
  (if bool_decide (rtype ∈ busy w) then Raise resource_busy else Ok (Handle "deleted"), w).

Definition sim_perform (r : request) (w : world) : result handle * world :=
  match r with
  | RG_create_or_update _ _ => created w 0 "/rg"
  | VNet_create _ _ _ => created w 1 "/id/vnet"
  | Subnet_create _ _ _ => created w 2 "/id/subnet"
  | NSG_create _ _ _ => created w 3 "/id/nsg"
  | PublicIP_create _ _ _ => created w 4 "/id/public_ip"
  | NIC_create _ _ _ _ => created w 5 "/id/nic"
  | VM_create _ _ _ => created w 6 "/id/vm"
  | RG_delete _ => deleted w "resource_group"
  | VM_delete _ _ => deleted w "vm"
  | NIC_delete _ _ => deleted w "nic"
  | PublicIP_delete _ _ => deleted w "public_ip"
  | NSG_delete _ _ => deleted w "nsg"
  | Subnet_delete _ _ _ => deleted w "subnet"
  | VNet_delete _ _ => deleted w "vnet"
  end.

Definition sim_open_read (path : string) (w : world) : result string * world :=
  (match key_file w with
   | Some data => Ok data
   | None => Raise no_such_file
   end, w).

#[export] Instance cloud : Cloud world := {|
  perform := sim_perform;
  open_read := sim_open_read;
  expanduser := λ p, p;
  strip := λ data, data;
  ip_configuration_init := λ kw,
    Ok (IpConfiguration (kw_name kw) (kw_subnet_id kw) (kw_public_ip_address_id kw))
|}.

Definition vm_section : json :=
  JObj (list_to_map
    [("name", JStr "vm1"); ("size", JStr "Standard_B1s");
     ("admin_username", JStr "azureuser");
     ("ssh_public_key_path", JStr "/keys/id_rsa.pub");
     ("virtual_network", JStr "vnet1"); ("sub_network", JStr "subnet1");
     ("network_security_grp", JStr "nsg1"); ("public_ip", JStr "ip1");
     ("network_interface", JStr "nic1")]).

Definition rg_section : json :=
  JObj (list_to_map [("name", JStr "rg1"); ("location", JStr "eastus")]).

(** A complete configuration. *)
Definition cfg : json :=
  JObj (list_to_map
    [("subscription_id", JStr "sub-0"); ("resource_group", rg_section);
     ("vm", vm_section)]).

(** The same configuration without [cfg["vm"]["public_ip"]]. *)
Definition cfg_without_public_ip : json :=
  match vm_section with
  | JObj fields =>
      JObj (list_to_map
        [("subscription_id", JStr "sub-0"); ("resource_group", rg_section);
         ("vm", JObj (delete "public_ip" fields))])
  | _ => JNull
  end.

(** Every call answers; the key file exists. *)
Definition all_fine : world := MkWorld 7 [] (Some "ssh-rsa AAAA").

(** Creation step [k] raises; every delete answers. *)
Definition failing_at (k : nat) : world := MkWorld k [] (Some "ssh-rsa AAAA").

(** Creation step [k] raises and so does every delete of a kind in [kinds]. *)
Definition failing_at_busy (k : nat) (kinds : list string) : world :=
  MkWorld k kinds (Some "ssh-rsa AAAA").

(** Every call answers but the key file cannot be opened. *)
Definition no_key_file : world := MkWorld 7 [] None.

End Sim.

(** ** More ways to read a call *)

(** The resource group a call is issued in: the first argument of every
    client method. *)
Definition request_resource_group (r : request) : value :=
  match r with
  | RG_delete rg => rg
  | RG_create_or_update rg _
  | VNet_create rg _ _
  | Subnet_create rg _ _
  | NSG_create rg _ _
  | PublicIP_create rg _ _
  | NIC_create rg _ _ _
  | VM_create rg _ _
  | VM_delete rg _
  | NIC_delete rg _
  | PublicIP_delete rg _
  | NSG_delete rg _
  | Subnet_delete rg _ _
  | VNet_delete rg _ => VJson rg
  end.

(** * stop_vm and deallocate_vm *)

(** The two calls of the compute client these functions issue,
    [virtual_machines.begin_power_off(...).result()] and
    [virtual_machines.begin_deallocate(...).result()], each with the
    subscription its client was built for. *)
Inductive power_request :=
| VM_power_off (subscription_id rg name : json)
| VM_deallocate (subscription_id rg name : json).

Class Compute (World : Type) := {
  perform_power : power_request → World → result handle * World
}.

Inductive power_output :=
| OutStopping (vm_name : json)
| OutStopped (vm_name : json)
| OutDeallocating (vm_name : json)
| OutDeallocated (vm_name : json).

Section PowerProgram.
Context {World : Type} `{!Compute World}.

Record power_state := PowerState {
  power_world : World;
  power_calls : list (power_request * result handle);
  power_stdout : list power_output
}.

(** The three reads of [cfg] both functions start with (lines 206 to 208
    and 224 to 226). *)
Definition read_power_config (cfg : json) : result (json * json * json) :=
  result_bind (subscript2 cfg "azure" "subscription_id") (λ subscription_id,
  result_bind (subscript2 cfg "resource_group" "name") (λ resource_group,
  result_bind (subscript2 cfg "vm" "name") (λ vm_name,
  Ok (subscription_id, resource_group, vm_name)))).

(** Print [before], issue [r], and print [after] when the call returns;
    there is no [try]: an exception of the call leaves the function. *)
Definition power_operation (r : power_request) (before after : power_output)
    (s : power_state) : result value * power_state :=
  let (res, w) := perform_power r (power_world s) in
  match res with
  | Ok _ =>
      (Ok PyNone,
       PowerState w (power_calls s ++ [(r, res)]) (power_stdout s ++ [before; after]))
  | Raise e =>
      (Raise e,
       PowerState w (power_calls s ++ [(r, res)]) (power_stdout s ++ [before]))
  end.

(** [stop_vm(cfg)] *)
Definition stop_vm (cfg : json) (s : power_state) : result value * power_state :=
  match read_power_config cfg with
  | Raise e => (Raise e, s)
  | Ok (subscription_id, resource_group, vm_name) =>
      power_operation (VM_power_off subscription_id resource_group vm_name)
                      (OutStopping vm_name) (OutStopped vm_name) s
  end.

(** [deallocate_vm(cfg)] *)
Definition deallocate_vm (cfg : json) (s : power_state) : result value * power_state :=
  match read_power_config cfg with
  | Raise e => (Raise e, s)
  | Ok (subscription_id, resource_group, vm_name) =>
      power_operation (VM_deallocate subscription_id resource_group vm_name)
                      (OutDeallocating vm_name) (OutDeallocated vm_name) s
  end.

End PowerProgram.

Arguments power_state World : clear implicits.

(** The VM a call acts on: subscription, resource group and name. *)
Definition power_target (r : power_request) : json * json * json :=
  match r with
  | VM_power_off subscription_id rg name
  | VM_deallocate subscription_id rg name => (subscription_id, rg, name)
  end.

(** A simulated compute client: a call raises when [refuses] is set. *)
Module PowerSim.

Record world := MkWorld { refuses : bool }.

#[export] Instance compute : Compute world := {|
  perform_power := λ r w,
    (if refuses w then Raise (ProviderError "Conflict" "operation not allowed")
     else Ok (Handle "/id/vm"), w)
|}.

(** [Sim.cfg] with the subscription also under [cfg["azure"]]. *)
Definition cfg_with_azure : json :=
  match Sim.cfg with
  | JObj fields =>
      JObj (<["azure" := JObj (list_to_map [("subscription_id", JStr "sub-0")])]> fields)
  | _ => JNull
  end.

Definition start (w : world) : power_state world := PowerState w [] [].

End PowerSim.

(** * main.py: the interactive menus *)

(** What can leave a function of [main.py]: the [FileNotFoundError] of
    [load_app_config], the [AttributeError] of a [.get] on something that
    is not a dict, the [EOFError] of [input], and whatever the environment
    raises ([json.load], the resource-group functions). *)
Inductive py_error :=
| FileNotFoundError (path : string)
| AttributeError (msg : string)
| EOFError
| Uncaught (e : exn).

Inductive outcome (A : Type) :=
| Returned (a : A)
| Failed (e : py_error).
Arguments Returned {A} a.
Arguments Failed {A} e.

(** The two functions [main.py] imports from [src.resource_group], as the
    calls it makes of them. *)
Inductive service_call :=
| CreateResourceGroup (rg_name location subscription_id : json)
| DeleteResourceGroup (rg_name subscription_id : json).

(** The environment of [main.py]: the console, the configuration file and
    the two imported functions, whose code is not in this module. *)
Class Console (World : Type) := {
  input : World → outcome string * World;
  path_exists : string → World → bool;
  json_load : string → World → outcome json * World;
  config_path : string → string;
  create_resource_group : json → json → json → World → outcome unit * World;
  delete_resource_group : json → json → World → outcome unit * World;
  str_strip : string → string
}.

(** The text of the [status] calls of the menus. *)
Inductive status_message :=
| MsgInteractiveMode
| MsgInvalidChoice
| MsgCreating (rg_name location : json)
| MsgCreateCompleted
| MsgDeleting (rg_name location : json)
| MsgDeleteCompleted.

(** One constructor per kind of [print]: [print()], [print_divider(char)],
    the banner of [print_header_for], a fixed line, the prompt [input]
    writes, [print(f"label: {value}")] and [status(msg, kind)], which
    prints the icon of [kind] (none for an unknown kind) before [msg]. *)
Inductive console_output :=
| ConBlank
| ConDivider (char : string)
| ConBanner
| ConLine (text : string)
| ConPrompt (text : string)
| ConField (label : string) (v : json)
| ConStatus (kind : string) (msg : status_message).

Definition newline : string := String (Ascii.ascii_of_nat 10) EmptyString.

(** [t or default] on strings: the empty string is false. *)
Definition or_default (t default : string) : string :=
  match t with
  | EmptyString => default
  | _ => t
  end.

(** [d.get(k, default)]: an [AttributeError] unless [d] is a dict. *)
Definition dict_get (d : json) (k : string) (default : json) : outcome json :=
  match d with
  | JObj fields =>
      match fields !! k with
      | Some v => Returned v
      | None => Returned default
      end
  | _ => Failed (AttributeError "object has no attribute get")
  end.

Section ConsoleProgram.
Context {World : Type} `{!Console World}.

(** The state of a run: the environment, the lines typed so far as
    [input] returned them, the calls of the imported functions, and what
    was printed. *)
Record console_state := ConsoleState {
  console_world : World;
  inputs_read : list string;
  service_calls : list (service_call * outcome unit);
  console_out : list console_output
}.

Definition CM (A : Type) : Type := console_state → outcome A * console_state.

Definition cret {A} (a : A) : CM A := λ s, (Returned a, s).

Definition cbind {A B} (m : CM A) (f : A → CM B) : CM B :=
  λ s, match m s with
       | (Returned a, s') => f a s'
       | (Failed e, s') => (Failed e, s')
       end.

Definition clift {A} (r : outcome A) : CM A := λ s, (r, s).

Definition cprint (o : console_output) : CM unit :=
  λ s, (Returned tt,
        ConsoleState (console_world s) (inputs_read s) (service_calls s)
                     (console_out s ++ [o])).

(** [input(prompt)]: writes the prompt, then reads a line. *)
Definition read_input (prompt : string) : CM string :=
  λ s, let (res, w) := input (console_world s) in
       (res,
        ConsoleState w
          (inputs_read s ++ match res with Returned raw => [raw] | Failed _ => [] end)
          (service_calls s) (console_out s ++ [ConPrompt prompt])).

Definition call_create_resource_group (rg_name location subscription_id : json)
  : CM unit :=
  λ s, let (res, w) :=
         create_resource_group rg_name location subscription_id (console_world s) in
       (res,
        ConsoleState w (inputs_read s)
          (service_calls s
             ++ [(CreateResourceGroup rg_name location subscription_id, res)])
          (console_out s)).

Definition call_delete_resource_group (rg_name subscription_id : json) : CM unit :=
  λ s, let (res, w) := delete_resource_group rg_name subscription_id (console_world s) in
       (res,
        ConsoleState w (inputs_read s)
          (service_calls s ++ [(DeleteResourceGroup rg_name subscription_id, res)])
          (console_out s)).

End ConsoleProgram.

Arguments console_state World : clear implicits.
Arguments CM World A : clear implicits.

Declare Scope console_scope.
Delimit Scope console_scope with console.
Bind Scope console_scope with CM.
Notation "x ← m ; k" := (cbind m (λ x, k))
  (at level 20, m at level 100, k at level 200, only parsing) : console_scope.
Notation "m ;; k" := (cbind m (λ _, k))
  (at level 100, k at level 200, right associativity, only parsing) : console_scope.

Section Menus.
Context {World : Type} `{!Console World}.
Local Open Scope console_scope.

(** [load_app_config(config_file)] *)
Definition load_app_config (config_file : string) : CM World json :=
  λ s, let path := config_path config_file in
       if path_exists path (console_world s) then
         let (res, w) := json_load path (console_world s) in
         (res, ConsoleState w (inputs_read s) (service_calls s) (console_out s))
       else (Failed (FileNotFoundError path), s).

(** [print_divider(char)] *)
Definition print_divider (char : string) : CM World unit :=
  cprint (ConDivider char).

(** [print_header_for()] *)
Definition print_header_for : CM World unit :=
  cprint ConBlank;;
  print_divider "═";;
  cprint ConBanner;;
  print_divider "═";;
  cprint ConBlank.

(** [status(msg, kind)] *)
Definition status (msg : status_message) (kind : string) : CM World unit :=
  cprint (ConStatus kind msg).

(** [input(prompt).strip() or "1"] *)
Definition read_choice (prompt : string) : CM World string :=
  raw ← read_input prompt;
  cret (or_default (str_strip raw) "1").

(** The reads of [cfg] each branch of [interactive_creation] starts with
    (lines 121 to 126, again 135 to 140 and 149 to 154), with the two
    lines printing what was read. *)
Definition read_resource_group (cfg : json) : CM World (json * json * json) :=
  rg_config ← clift (dict_get cfg "resource_group" (JObj ∅));
  subscription_id ← clift (dict_get cfg "subscription_id" (JObj ∅));
  rg_name ← clift (dict_get rg_config "name" JNull);
  location ← clift (dict_get rg_config "location" (JStr "eastus"));
  cprint (ConField "rg_name" rg_name);;
  cprint (ConField "location" location);;
  cret (rg_name, location, subscription_id).

(** [interactive_creation(cfg)]: three [if]s in a row, not an [elif]
    chain.  The branch for ["3"] is the text of the branch for ["2"]. *)
Definition interactive_creation (cfg : json) : CM World value :=
  print_header_for;;
  cprint (ConLine (String.append newline "Select service:"));;
  cprint (ConLine "  1) Resource group creation");;
  cprint (ConLine "  2) Resource group deleteion");;
  cprint (ConLine "  3) Virtual Machine creation");;
  cprint (ConLine "  4) Virtual Machine deletion");;
  cprint (ConLine "  98) Delete costly service");;
  cprint (ConLine "  99) Delete all");;
  a ← read_choice "Enter choice [1-2] (default 1): ";
  (if String.eqb a "1" then
     settings ← read_resource_group cfg;
     let '(rg_name, location, subscription_id) := settings in
     status (MsgCreating rg_name location) "action";;
     call_create_resource_group rg_name location subscription_id;;
     status MsgCreateCompleted "success"
   else cret tt);;
  (if String.eqb a "2" then
     settings ← read_resource_group cfg;
     let '(rg_name, location, subscription_id) := settings in
     status (MsgDeleting rg_name location) "action";;
     call_delete_resource_group rg_name subscription_id;;
     status MsgDeleteCompleted "success"
   else cret tt);;
  (if String.eqb a "3" then
     settings ← read_resource_group cfg;
     let '(rg_name, location, subscription_id) := settings in
     status (MsgDeleting rg_name location) "action";;
     call_delete_resource_group rg_name subscription_id;;
     status MsgDeleteCompleted "success"
   else cret tt);;
  cret PyNone.

(** [interactive_mymlops_project()] *)
Definition interactive_mymlops_project : CM World value :=
  cfg ← load_app_config "config_mymlops_dev.json";
  print_header_for;;
  cprint (ConLine (String.append newline "Select action:"));;
  cprint (ConLine "  1) Interactive");;
  cprint (ConLine "  2) Create all service");;
  cprint (ConLine "  2) Delete costly service");;
  cprint (ConLine "  2) Delete all");;
  a ← read_choice "Enter choice [1-2] (default 1): ";
  if String.eqb a "1" then interactive_creation cfg else cret PyNone.

(** [interactive_menu()] *)
Definition interactive_menu : CM World value :=
  cprint ConBlank;;
  status MsgInteractiveMode "info";;
  cprint (ConLine "Select project:");;
  cprint (ConLine "  1) my-mlops");;
  cprint (ConLine "  2) my-llm");;
  cprint (ConLine "  3) guest-sense-app");;
  choice ← read_choice (String.append newline "Enter choice [1-3] (default 1): ");
  if negb (bool_decide (choice ∈ ["1"; "2"; "3"; "4"])) then
    status MsgInvalidChoice "error";;
    cret PyNone
  else if String.eqb choice "1" then interactive_mymlops_project
  else cret PyNone.

(** [main()] *)
Definition main : CM World value := interactive_menu.

End Menus.

(** A simulated console: the lines still to be typed, the configuration
    file if there is one, and whether the imported functions raise. *)
Module ConsoleSim.

Record world := MkWorld {
  pending : list string;
  config_file : option json;
  service_raises : bool
}.

Definition denied : py_error := Uncaught (ProviderError "AuthorizationFailed" "denied").

Definition serve (w : world) : outcome unit * world :=
  (if service_raises w then Failed denied else Returned tt, w).

#[export] Instance console : Console world := {|
  input := λ w,
    match pending w with
    | [] => (Failed EOFError, w)
    | line :: rest => (Returned line, MkWorld rest (config_file w) (service_raises w))
    end;
  path_exists := λ _ w, bool_decide (is_Some (config_file w));
  json_load := λ _ w,
    (match config_file w with
     | Some cfg => Returned cfg
     | None => Failed (Uncaught (OSError "cannot open"))
     end, w);
  config_path := λ file, String.append "/app/cfg/" file;
  create_resource_group := λ _ _ _ w, serve w;
  delete_resource_group := λ _ _ w, serve w;
  str_strip := λ t, t
|}.

Definition start (w : world) : console_state world := ConsoleState w [] [] [].

(** A configuration with nothing in it. *)
Definition empty_cfg : json := JObj ∅.

End ConsoleSim.

(** * Properties *)

(** ** The rollback loop *)

(** Case analysis along the [if]/[elif] chain on [rtype]. *)
Ltac case_rtype :=
  repeat match goal with
         | |- context [String.eqb ?a ?b] =>
             destruct (String.eqb_spec a b) as [->|?]; try discriminate
         end.

Section RollbackFacts.
Context {World : Type} `{!Cloud World}.
Local Arguments delete_request : simpl never.

(** A delete call targets the entry it was issued for. *)
Lemma delete_request_target rg_name entry r :
  delete_request rg_name entry = Some r → delete_target r = Some entry.
Proof.
  destruct entry as [rtype name]. unfold delete_request.
  case_rtype; intros [= <-]; reflexivity.
Qed.

(** No entry, whatever its kind, makes the loop touch a subnet or the
    resource group. *)
Lemma delete_request_kind rg_name entry r :
  delete_request rg_name entry = Some r →
  entry.1 ≠ "subnet" ∧ entry.1 ∈ step_kinds ∧ is_resource_group_request r = false.
Proof.
  destruct entry as [rtype name]. unfold delete_request, step_kinds. cbn.
  case_rtype; intros [= <-]; (split; [discriminate|split; [set_solver|reflexivity]]).
Qed.

(** One entry of the loop, with its [try]/[except]: the line is printed,
    the call of [delete_request] is issued if there is one, and a raise is
    turned into a printed line. *)
Lemma delete_entry_guarded rg_name rtype name s :
  try_except (delete_entry rg_name rtype name)
             (λ ex, print (OutFailedToDelete rtype name ex)) s =
  match delete_request rg_name (rtype, name) with
  | None =>
      (Ok tt, State (world s) (created_resources s) (calls s)
                    (stdout s ++ [OutDeleting rtype name]))
  | Some r =>
      match perform r (world s) with
      | (Ok h, w) =>
          (Ok tt, State w (created_resources s) (calls s ++ [(r, Ok h)])
                        (stdout s ++ [OutDeleting rtype name]))
      | (Raise ex, w) =>
          (Ok tt, State w (created_resources s) (calls s ++ [(r, Raise ex)])
                        ((stdout s ++ [OutDeleting rtype name])
                           ++ [OutFailedToDelete rtype name ex]))
      end
  end.
Proof.
  unfold try_except, delete_entry, delete_request, bind, print, call, ret.
  case_rtype; cbn;
    try (destruct (perform _ (world s)) as [[h|ex] w]); reflexivity.
Qed.

(** The loop never raises, leaves [created_resources] alone, issues
    exactly the calls of [delete_request] for the entries in the order it
    visits them whatever the earlier calls answered, prints one line per
    entry, and one more line per call that raised. *)
Lemma rollback_loop_run rg_name entries s :
  ∃ w evs out,
    rollback_loop rg_name entries s =
      (Ok tt, State w (created_resources s) (calls s ++ evs) (stdout s ++ out)) ∧
    evs.*1 = omap (delete_request rg_name) entries ∧
    deleting_lines out = entries ∧
    failed_lines out = failed_deletions evs.
Proof.
  revert s. induction entries as [|[rtype name] rest IH]; intros s.
  { exists (world s), [], []. rewrite !app_nil_r. destruct s; done. }
  cbn [rollback_loop]. unfold bind at 1. rewrite delete_entry_guarded.
  unfold deleting_lines, failed_lines, failed_deletions in *.
  destruct (delete_request rg_name (rtype, name)) as [r|] eqn:Hr.
  - pose proof (delete_request_target _ _ _ Hr) as Ht.
    destruct (perform r (world s)) as [[h|ex] w1];
      edestruct IH as (w & evs & out & -> & Hevs & Hdel & Hfail); cbn in *.
    + exists w, ((r, Ok h) :: evs), (OutDeleting rtype name :: out).
      rewrite <- !app_assoc. cbn. rewrite Hr, Hevs, Hdel. done.
    + exists w, ((r, Raise ex) :: evs),
             (OutDeleting rtype name :: OutFailedToDelete rtype name ex :: out).
      rewrite <- !app_assoc. cbn. rewrite Hr, Ht, Hevs, Hdel, Hfail. done.
  - edestruct IH as (w & evs & out & -> & Hevs & Hdel & Hfail); cbn in *.
    exists w, evs, (OutDeleting rtype name :: out).
    rewrite <- !app_assoc. cbn. rewrite Hr, Hevs, Hdel. done.
Qed.

(** [rollback_resources] is the loop over the reversed list followed by
    the closing line; it returns [None]. *)
Lemma rollback_resources_run rg_name created s :
  ∃ w evs out,
    rollback_resources rg_name created s =
      (Ok PyNone,
       State w (created_resources s) (calls s ++ evs)
             (stdout s ++ out ++ [OutRollbackComplete])) ∧
    evs.*1 = omap (delete_request rg_name) (reverse created) ∧
    deleting_lines out = reverse created ∧
    failed_lines out = failed_deletions evs.
Proof.
  destruct (rollback_loop_run rg_name (reverse created) s)
    as (w & evs & out & Hrun & Hevs & Hdel & Hfail).
  exists w, evs, out. unfold rollback_resources, bind. rewrite Hrun. cbn.
  by rewrite <- app_assoc.
Qed.

End RollbackFacts.

(** ** The runs of create_vm *)

Section RunFacts.
Context {World : Type} `{!Cloud World}.
Local Arguments create_vm_body : simpl never.
Local Arguments rollback_resources : simpl never.

(** The body run from a state with nothing committed and no call issued
    takes one of the nine ways of [body_run]. *)
Lemma create_vm_body_run l w out0 :
  ∃ w' evs committed out res,
    create_vm_body l (State w [] [] out0) = (res, State w' committed evs out) ∧
    body_run l evs committed res.
Proof.
  unfold create_vm_body, bind, lift, print, call, append_created, read_stripped. cbn.
  unfold rg_call, vnet_call, subnet_call, nsg_call, public_ip_call.
  repeat match goal with
         | |- context [perform ?r ?x] => destruct (perform r x) as [[?|?] ?]; cbn
         | |- context [open_read ?p ?x] => destruct (open_read p x) as [[?|?] ?]; cbn
         | |- context [ip_configuration_init ?k] =>
             destruct (ip_configuration_init k) as [?|?] eqn:?; cbn
         end;
    eexists _, _, _, _, _; (split; [reflexivity|]); econstructor; eassumption.
Qed.

(** A run of [create_vm]: either [cfg] cannot be read and nothing happens,
    or the body runs; when the body raises [e], the handler hands the list
    the body left in [created_resources] to [rollback_resources] and then
    raises [e] again. *)
Lemma create_vm_run cfg w :
  match read_config cfg with
  | Raise e => create_vm cfg (initial w) = (Raise e, initial w)
  | Ok l =>
      ∃ s1 res,
        create_vm_body l (State w [] [] [OutStarting (vm_name l) (location l)])
          = (res, s1) ∧
        body_run l (calls s1) (created_resources s1) res ∧
        match res with
        | Ok _ => create_vm cfg (initial w) = (Ok PyNone, s1)
        | Raise e =>
            create_vm cfg (initial w) =
              (Raise e,
               (rollback_resources (resource_group l) (created_resources s1)
                  (State (world s1) (created_resources s1) (calls s1)
                         (stdout s1 ++ [OutError e; OutRollingBack]))).2)
        end
  end.
Proof.
  unfold create_vm, initial, bind, lift, print, reset_created, try_except,
    create_vm_handler, get_created, raise, ret.
  destruct (read_config cfg) as [l|e]; [|reflexivity]. cbn.
  destruct (create_vm_body_run l w [OutStarting (vm_name l) (location l)])
    as (w' & evs & committed & out & res & Hbody & Hrun).
  eexists _, res. split; [exact Hbody|]. split; [exact Hrun|].
  rewrite Hbody. destruct res as [[]|e]; [reflexivity|]. cbn.
  rewrite <- app_assoc. cbn. unfold bind.
  destruct (rollback_resources_run (resource_group l) committed
              (State w' committed evs (out ++ [OutError e; OutRollingBack])))
    as (w2 & devs & dout & -> & _). reflexivity.
Qed.

End RunFacts.

(** Finds an event in an explicit list of calls, possibly followed by the
    calls of the rollback. *)
Ltac in_calls :=
  try (apply elem_of_app; left);
  repeat first [apply list_elem_of_here | apply list_elem_of_further].

(** ** Reading the calls of a run *)

Section TraceFacts.
Context {World : Type} `{!Cloud World}.
Local Arguments delete_request : simpl never.
Local Arguments rollback_resources : simpl never.
Local Arguments create_vm : simpl never.

Lemma first_failed_step_app tr1 tr2 :
  first_failed_step (tr1 ++ tr2) =
    match first_failed_step tr1 with
    | Some found => Some found
    | None => first_failed_step tr2
    end.
Proof.
  induction tr1 as [|[r [h|e]] tr1 IH]; cbn; [done|done|].
  by destruct (step_of_request r).
Qed.

Lemma succeeded_steps_app tr1 tr2 :
  succeeded_steps (tr1 ++ tr2) = succeeded_steps tr1 ++ succeeded_steps tr2.
Proof. apply omap_app. Qed.

Lemma deleted_kinds_app tr1 tr2 :
  deleted_kinds (tr1 ++ tr2) = deleted_kinds tr1 ++ deleted_kinds tr2.
Proof. unfold deleted_kinds. by rewrite fmap_app, omap_app. Qed.

(** The calls the rollback issues are deletions: none of them is a
    creation step and none of them touches the resource group. *)
Lemma rollback_calls_are_deletions rg_name entries (devs : list (request * result handle)) :
  devs.*1 = omap (delete_request rg_name) entries →
  Forall (λ r, step_of_request r = None ∧ is_resource_group_request r = false
               ∧ ∃ rtype name, delete_target r = Some (rtype, name)
                               ∧ rtype ≠ "subnet" ∧ rtype ∈ step_kinds) devs.*1.
Proof.
  intros ->. apply Forall_forall. intros r Hr.
  apply list_elem_of_omap in Hr as ([rtype name] & _ & Hreq).
  pose proof (delete_request_target _ _ _ Hreq) as Ht.
  pose proof (delete_request_kind _ _ _ Hreq) as (Hsub & Hkind & Hrg).
  split_and!; [|done|by exists rtype, name].
  destruct r; cbn in Ht; try discriminate; reflexivity.
Qed.

Lemma first_failed_step_rollback rg_name entries (devs : list (request * result handle)) :
  devs.*1 = omap (delete_request rg_name) entries → first_failed_step devs = None.
Proof.
  intros Hdevs. apply rollback_calls_are_deletions in Hdevs.
  induction devs as [|[r res] devs IH]; [done|].
  rewrite fmap_cons in Hdevs. inversion Hdevs as [|? ? (Hstep & _) Hrest]; subst.
  cbn in *. rewrite Hstep. destruct res; by apply IH.
Qed.

Lemma succeeded_steps_rollback rg_name entries (devs : list (request * result handle)) :
  devs.*1 = omap (delete_request rg_name) entries → succeeded_steps devs = [].
Proof.
  intros Hdevs. apply rollback_calls_are_deletions in Hdevs.
  induction devs as [|[r res] devs IH]; [done|].
  rewrite fmap_cons in Hdevs. inversion Hdevs as [|? ? (Hstep & _) Hrest]; subst.
  unfold succeeded_steps in *. cbn in *. rewrite Hstep, (IH Hrest). by destruct res.
Qed.

(** The kinds the rollback deletes: those of the entries it visits, in
    that order, without the subnets. *)
Lemma deleted_kinds_rollback rg_name entries (devs : list (request * result handle)) :
  devs.*1 = omap (delete_request rg_name) entries →
  Forall (λ rtype, rtype ∈ step_kinds) entries.*1 →
  deleted_kinds devs = filter (λ rtype, rtype ≠ "subnet") entries.*1.
Proof.
  unfold deleted_kinds. intros -> Hkinds. clear devs.
  induction entries as [|[rtype name] rest IH]; [done|].
  rewrite fmap_cons in Hkinds. inversion Hkinds as [|? ? Hkind Hrest]; subst.
  rewrite fmap_cons, filter_cons. cbn -[filter].
  destruct (delete_request rg_name (rtype, name)) as [r|] eqn:Hr.
  - pose proof (delete_request_kind _ _ _ Hr) as (Hsub & _).
    cbn -[filter] in *. rewrite (delete_request_target _ _ _ Hr). cbn -[filter].
    rewrite decide_True by done. by rewrite IH.
  - cbn -[filter] in *. rewrite decide_False, IH; [done..|].
    intros Hne. unfold step_kinds in Hkind.
    repeat (apply elem_of_cons in Hkind as [->|Hkind]);
      try (by apply elem_of_nil in Hkind); by vm_compute in Hr.
Qed.

(** What the body's own calls tell: they are creations, the first of them
    is the resource-group call, and a step whose call raised ends the body
    with the kinds of the steps before it committed. *)
Lemma body_run_no_deletes l evs committed res :
  body_run l evs committed res →
  deleted_kinds evs = [] ∧
  Forall (λ ev, is_resource_group_request ev.1 = false) (tail evs) ∧
  fst <$> head evs = Some (rg_call l).
Proof. inversion 1; subst; split_and!; try done; repeat constructor. Qed.

Lemma body_run_committed l evs committed res :
  body_run l evs committed res →
  ∃ n, (n ≤ 6)%nat ∧ committed.*1 = take n step_kinds.
Proof.
  inversion 1; subst;
    [exists 0%nat|exists 0%nat|exists 1%nat|exists 2%nat|exists 3%nat
    |exists 4%nat|exists 4%nat|exists 5%nat|exists 5%nat|exists 6%nat];
    (split; [lia|reflexivity]).
Qed.

Lemma body_run_kinds l evs committed res :
  body_run l evs committed res →
  Forall (λ entry : string * value, entry.1 ∈ step_kinds) committed.
Proof.
  inversion 1; subst; repeat constructor; cbn; unfold step_kinds; set_solver.
Qed.

(** Whenever the public IP is committed, its entry holds the object the
    creation call returned; the five other entries hold configured names. *)
Lemma body_run_entries l evs committed res :
  body_run l evs committed res →
  Forall (λ entry : string * value,
            if String.eqb entry.1 "public_ip"
            then ∃ pip, entry.2 = VObj pip ∧ (public_ip_call l, Ok pip) ∈ evs
            else ∃ name, entry.2 = VJson name) committed.
Proof.
  inversion 1; subst; repeat constructor; cbn; eauto;
    eexists; (split; [reflexivity|in_calls]).
Qed.

Lemma body_run_failed_step l evs committed res k e :
  body_run l evs committed res →
  first_failed_step evs = Some (k, e) →
  res = Raise e ∧ (1 ≤ k ≤ 6)%nat ∧ committed.*1 = take (k - 1) step_kinds.
Proof. inversion 1; subst; cbn; intros [= <- <-]; split_and!; done || lia. Qed.

Lemma body_run_no_failed_step l evs committed res :
  body_run l evs committed res →
  first_failed_step evs = None →
  (res = Ok tt ∧ succeeded_steps evs = [1; 2; 3; 4; 5; 6]%nat)
  ∨ (∃ e, res = Raise e
          ∧ (length evs = 1%nat ∨ length evs = 5%nat ∨ length evs = 6%nat)).
Proof.
  inversion 1; subst; cbn; try discriminate; intros _;
    [right|right|right|left]; eauto.
Qed.

(** The three ways a run of [create_vm] started in [initial w] can go:
    [cfg] cannot be read; every step is created; or the body raises and the
    rollback issues the calls of [delete_request] for the committed entries
    in reverse. *)
Lemma create_vm_cases cfg w :
  (∃ e, read_config cfg = Raise e ∧ create_vm cfg (initial w) = (Raise e, initial w))
  ∨ (∃ l w1 evs committed out,
       read_config cfg = Ok l ∧ body_run l evs committed (Ok tt) ∧
       create_vm cfg (initial w) = (Ok PyNone, State w1 committed evs out))
  ∨ (∃ l e w2 evs devs committed out,
       read_config cfg = Ok l ∧ body_run l evs committed (Raise e) ∧
       create_vm cfg (initial w) = (Raise e, State w2 committed (evs ++ devs) out) ∧
       devs.*1 = omap (delete_request (resource_group l)) (reverse committed)).
Proof.
  pose proof (create_vm_run cfg w) as Hrun.
  destruct (read_config cfg) as [l|e]; [|left; by exists e].
  destruct Hrun as ([w1 committed evs out] & [[]|e] & Hbody & Hrun & Heq);
    cbn in Hrun, Heq; rewrite Heq; right.
  - left. by exists l, w1, evs, committed, out.
  - right.
    destruct (rollback_resources_run (resource_group l) committed
                (State w1 committed evs (out ++ [OutError e; OutRollingBack])))
      as (w2 & devs & dout & -> & Hdevs & _).
    exists l, e, w2, evs, devs, committed. eexists. done.
Qed.

(** Whatever makes the body of the [try] raise (a creation step, the
    resource-group call or the key file), [create_vm] raises the same
    exception once the rollback is over. *)
Lemma body_error_is_raised cfg w l s1 e :
  read_config cfg = Ok l →
  create_vm_body l (State w [] [] [OutStarting (vm_name l) (location l)])
    = (Raise e, s1) →
  (create_vm cfg (initial w)).1 = Raise e.
Proof.
  intros Hcfg Hbody. pose proof (create_vm_run cfg w) as Hrun.
  rewrite Hcfg in Hrun. destruct Hrun as (s1' & res & Hbody' & _ & Heq).
  rewrite Hbody in Hbody'. injection Hbody' as <- <-. by rewrite Heq.
Qed.

End TraceFacts.

(** ** Reading the configuration *)

Section ConfigFacts.
Context {World : Type} `{!Cloud World}.

Lemma subscript_get_path v k x :
  subscript v k = Ok x → get_path v [k] = Some x.
Proof.
  unfold subscript. cbn. destruct v; try discriminate.
  destruct (fields !! k); [|discriminate]. by intros [= ->].
Qed.

Lemma subscript2_get_path v k1 k2 x :
  subscript2 v k1 k2 = Ok x → get_path v [k1; k2] = Some x.
Proof.
  unfold subscript2, result_bind. cbn.
  destruct (subscript v k1) as [inner|] eqn:Hinner; [|discriminate].
  apply subscript_get_path in Hinner. cbn in Hinner.
  destruct v; try discriminate. destruct (fields !! k1); [|discriminate].
  injection Hinner as ->. intros Hx. by apply subscript_get_path in Hx.
Qed.

(** One read [cfg[k1][k2]] of [read_config] that succeeded. *)
Ltac read_field cfg :=
  match goal with
  | |- context [subscript2 cfg ?k1 ?k2] =>
      let H := fresh "H" in
      destruct (subscript2 cfg k1 k2) eqn:H; [|discriminate];
      apply subscript2_get_path in H
  end.

(** When [read_config] succeeds every required field is there and the key
    path is a string. *)
Lemma read_config_ok cfg l :
  read_config cfg = Ok l →
  Forall (λ path, is_Some (get_path cfg path)) required_fields ∧
  ∃ p, get_path cfg ["vm"; "ssh_public_key_path"] = Some (JStr p).
Proof.
  unfold read_config.
  destruct (subscript cfg "subscription_id") eqn:H0; [|discriminate].
  apply subscript_get_path in H0.
  repeat read_field cfg. cbn [result_bind].
  destruct (os_path_expanduser _) eqn:Hpath; [|discriminate]. cbn [result_bind].
  repeat read_field cfg. cbn [result_bind]. intros _.
  split; [repeat constructor; eauto|].
  match goal with
  | Hp : os_path_expanduser ?j = _ |- _ => destruct j; try discriminate
  end.
  eauto.
Qed.

(** What [read_config] returns is what [cfg] holds at the paths read. *)
Lemma read_config_paths cfg l :
  read_config cfg = Ok l →
  get_path cfg ["resource_group"; "name"] = Some (resource_group l) ∧
  get_path cfg ["resource_group"; "location"] = Some (location l) ∧
  get_path cfg ["vm"; "name"] = Some (vm_name l) ∧
  get_path cfg ["vm"; "virtual_network"] = Some (virtual_network l) ∧
  get_path cfg ["vm"; "sub_network"] = Some (sub_network l).
Proof.
  unfold read_config.
  destruct (subscript cfg "subscription_id") eqn:H0; [|discriminate].
  repeat read_field cfg. cbn [result_bind].
  destruct (os_path_expanduser _) eqn:Hpath; [|discriminate]. cbn [result_bind].
  repeat read_field cfg. cbn [result_bind]. intros [= <-]. cbn.
  split_and!; assumption.
Qed.

End ConfigFacts.

(** * The claims *)

Section Claims.
Context {World : Type} `{!Cloud World}.
Local Arguments delete_request : simpl never.
Local Arguments rollback_resources : simpl never.
Local Arguments create_vm : simpl never.
Local Arguments create_vm_body : simpl never.
Local Arguments deleted_kinds : simpl never.

(** Closes a goal stating that a kind is not in an explicit list of kinds. *)
Ltac kind_not_in :=
  repeat (apply not_elem_of_cons; split; [discriminate|]); apply not_elem_of_nil.

(** C1.  When creation step [k] (1 to 6: VNet, Subnet, NSG, PublicIP, NIC,
    VM) is the first whose call raises, the body of the [try] stops there
    with exactly the first [k-1] kinds in [created_resources]; the handler
    passes that very list to [rollback_resources]; the delete calls of the
    whole run are those of kinds [k-1], ..., [1] in that order with the
    subnet left out; and no delete call is issued for a subnet. *)
Theorem C1_rollback_after_first_failed_step (cfg : json) (w : World) (k : nat) (e : exn) :
  first_failed_step (calls (create_vm cfg (initial w)).2) = Some (k, e) →
  (1 ≤ k ≤ 6)%nat ∧
  ∃ l s1,
    read_config cfg = Ok l ∧
    create_vm_body l (State w [] [] [OutStarting (vm_name l) (location l)])
      = (Raise e, s1) ∧
    (created_resources s1).*1 = take (k - 1) step_kinds ∧
    (create_vm cfg (initial w)).2 =
      (rollback_resources (resource_group l) (created_resources s1)
         (State (world s1) (created_resources s1) (calls s1)
                (stdout s1 ++ [OutError e; OutRollingBack]))).2 ∧
    deleted_kinds (calls (create_vm cfg (initial w)).2) =
      filter (λ rtype, rtype ≠ "subnet") (reverse (take (k - 1) step_kinds)) ∧
    "subnet" ∉ deleted_kinds (calls (create_vm cfg (initial w)).2).
Proof.
  intros Hfail. pose proof (create_vm_run cfg w) as Hrun.
  destruct (read_config cfg) as [l|e0] eqn:Hcfg;
    [|rewrite Hrun in Hfail; discriminate].
  destruct Hrun as ([w1 committed evs out] & res & Hbody & Hrun & Heq).
  cbn in Hrun, Heq.
  assert (first_failed_step evs = Some (k, e) ∧
          (res = Raise e → deleted_kinds (calls (create_vm cfg (initial w)).2)
                           = filter (λ rtype, rtype ≠ "subnet") (reverse committed.*1)))
    as [Hstep Hdel].
  { destruct res as [[]|e1]; rewrite Heq in Hfail |- *.
    { cbn in Hfail. split; [done|discriminate]. }
    destruct (rollback_resources_run (resource_group l) committed
                (State w1 committed evs (out ++ [OutError e1; OutRollingBack])))
      as (w2 & devs & dout & Hroll & Hdevs & _).
    rewrite Hroll in Hfail |- *. cbn in Hfail |- *.
    rewrite first_failed_step_app, (first_failed_step_rollback _ _ _ Hdevs) in Hfail.
    split; [by destruct (first_failed_step evs)|]. intros _.
    rewrite deleted_kinds_app, (proj1 (body_run_no_deletes _ _ _ _ Hrun)).
    rewrite (deleted_kinds_rollback _ _ _ Hdevs); [by rewrite fmap_reverse|].
    rewrite fmap_reverse. destruct (body_run_committed _ _ _ _ Hrun) as (n & _ & ->).
    apply Forall_reverse, Forall_take, Forall_forall. done. }
  destruct (body_run_failed_step _ _ _ _ _ _ Hrun Hstep) as (-> & Hk & Hcommitted).
  split; [done|]. exists l, (State w1 committed evs out). cbn.
  rewrite (Hdel eq_refl), Hcommitted, Heq. split_and!; try done.
  intros Hin. by apply list_elem_of_filter in Hin as [Hne _].
Qed.

(** C2.  When a creation step raises [e], [create_vm] raises that same [e]
    to its caller once the rollback is over, whatever the delete calls of
    the rollback answered: the statement holds in every environment, so
    also in those where deletions raise. *)
Theorem C2_original_error_is_raised (cfg : json) (w : World) (k : nat) (e : exn) :
  first_failed_step (calls (create_vm cfg (initial w)).2) = Some (k, e) →
  (create_vm cfg (initial w)).1 = Raise e.
Proof.
  intros Hfail.
  destruct (create_vm_cases cfg w)
    as [(e0 & _ & Heq)|[(l & w1 & evs & committed & out & _ & Hrun & Heq)
       |(l & e0 & w2 & evs & devs & committed & out & _ & Hrun & Heq & Hdevs)]];
    rewrite Heq in Hfail |- *; cbn in Hfail |- *.
  - discriminate.
  - by destruct (body_run_failed_step _ _ _ _ _ _ Hrun Hfail) as ([=] & _).
  - rewrite first_failed_step_app, (first_failed_step_rollback _ _ _ Hdevs) in Hfail.
    destruct (first_failed_step evs) as [found|] eqn:Hstep; [|done].
    injection Hfail as ->.
    by destruct (body_run_failed_step _ _ _ _ _ _ Hrun Hstep) as ([= ->] & _).
Qed.

(** C10.  When the resource-group call itself raises [e], the handler runs
    [rollback_resources] on the empty list: the only call of the whole run
    is the resource-group call, no delete call is issued, nothing is
    committed, and [create_vm] raises [e] unchanged. *)
Theorem C10_resource_group_failure (cfg : json) (w w' : World) (l : locals) (e : exn) :
  read_config cfg = Ok l →
  perform (rg_call l) w = (Raise e, w') →
  create_vm cfg (initial w) =
    (Raise e,
     State w' [] [(rg_call l, Raise e)]
           [OutStarting (vm_name l) (location l);
            OutEnsuringResourceGroup (resource_group l);
            OutError e; OutRollingBack; OutRollbackComplete]) ∧
  (create_vm cfg (initial w)).2 =
    (rollback_resources (resource_group l) []
       (State w' [] [(rg_call l, Raise e)]
              [OutStarting (vm_name l) (location l);
               OutEnsuringResourceGroup (resource_group l);
               OutError e; OutRollingBack])).2 ∧
  deleted_kinds (calls (create_vm cfg (initial w)).2) = [].
Proof.
  intros Hcfg Hperform.
  assert (create_vm cfg (initial w) =
    (Raise e,
     State w' [] [(rg_call l, Raise e)]
           [OutStarting (vm_name l) (location l);
            OutEnsuringResourceGroup (resource_group l);
            OutError e; OutRollingBack; OutRollbackComplete])) as Heq.
  { unfold create_vm, initial, bind, lift, print, reset_created, try_except,
      create_vm_handler, get_created, raise, ret. rewrite Hcfg. cbn.
    unfold create_vm_body, bind, print, call. cbn.
    unfold rg_call in Hperform. rewrite Hperform. reflexivity. }
  rewrite Heq. done.
Qed.

(** C3, as the code has it.  When the six creation calls all return, the
    run issued them in the order VNet, Subnet, NSG, PublicIP, NIC, VM, each
    once; [created_resources] holds the six kinds in that order; nothing is
    deleted; and [create_vm] returns [None] (the function has no [return]:
    the identifier of the VM is not handed to the caller). *)
Theorem C3_all_steps_created (cfg : json) (w : World) :
  succeeded_steps (calls (create_vm cfg (initial w)).2) = [1; 2; 3; 4; 5; 6]%nat →
  (create_vm cfg (initial w)).1 = Ok PyNone ∧
  omap step_of_request (calls (create_vm cfg (initial w)).2).*1
    = [1; 2; 3; 4; 5; 6]%nat ∧
  (created_resources (create_vm cfg (initial w)).2).*1 = step_kinds ∧
  length (created_resources (create_vm cfg (initial w)).2) = 6%nat ∧
  deleted_kinds (calls (create_vm cfg (initial w)).2) = [].
Proof.
  intros Hok.
  destruct (create_vm_cases cfg w)
    as [(e0 & _ & Heq)|[(l & w1 & evs & committed & out & _ & Hrun & Heq)
       |(l & e0 & w2 & evs & devs & committed & out & _ & Hrun & Heq & Hdevs)]];
    rewrite Heq in Hok |- *; cbn in Hok |- *.
  - discriminate.
  - inversion Hrun; subst. done.
  - rewrite succeeded_steps_app, (succeeded_steps_rollback _ _ _ Hdevs) in Hok.
    inversion Hrun; subst; discriminate.
Qed.

(** C4.  [rollback_resources] never raises.  The delete calls it issues are
    those of [delete_request] for the committed entries in reverse order:
    they depend on the list alone, not on what earlier delete calls
    answered, so a delete that raises stops nothing.  Each delete call that
    raised is printed as a line with its kind, its name and the exception,
    and nothing else is printed as a failure. *)
Theorem C4_rollback_continues_after_failed_delete
    (rg_name : json) (created : list (string * value)) (s : state World) :
  ∃ w evs out,
    rollback_resources rg_name created s =
      (Ok PyNone,
       State w (created_resources s) (calls s ++ evs)
             (stdout s ++ out ++ [OutRollbackComplete])) ∧
    evs.*1 = omap (delete_request rg_name) (reverse created) ∧
    failed_lines out = failed_deletions evs.
Proof.
  destruct (rollback_resources_run rg_name created s)
    as (w & evs & out & Hrun & Hevs & _ & Hfail).
  by exists w, evs, out.
Qed.

(** C5, as the code has it.  [rollback_resources] returns [None], not a
    report.  What it reports, it prints: one line per committed entry in
    reverse order (the subnet included), one more line for exactly each
    delete call that raised, and the closing line; no failure line at all
    when every delete call returned. *)
Theorem C5_rollback_prints_its_report
    (rg_name : json) (created : list (string * value)) (s : state World) :
  (rollback_resources rg_name created s).1 = Ok PyNone ∧
  ∃ evs out,
    calls (rollback_resources rg_name created s).2 = calls s ++ evs ∧
    stdout (rollback_resources rg_name created s).2
      = stdout s ++ out ++ [OutRollbackComplete] ∧
    deleting_lines out = reverse created ∧
    failed_lines out = failed_deletions evs ∧
    (failed_lines out = [] ↔ Forall (λ ev, ∃ h, ev.2 = Ok h) evs).
Proof.
  destruct (rollback_resources_run rg_name created s)
    as (w & evs & out & -> & Hevs & Hdel & Hfail).
  split; [done|]. exists evs, out. split_and!; try done.
  rewrite Hfail. apply rollback_calls_are_deletions in Hevs. clear Hfail Hdel.
  unfold failed_deletions.
  induction evs as [|[r [h|ex]] evs IH]; cbn.
  - split; [constructor|done].
  - rewrite fmap_cons in Hevs. inversion Hevs; subst. rewrite IH by done.
    split; [constructor; eauto|by inversion 1].
  - rewrite fmap_cons in Hevs.
    inversion Hevs as [|? ? (_ & _ & rtype & name & Ht & _) Hrest]; subst.
    rewrite Ht. cbn. split; [done|]. inversion 1 as [|? ? [h Hh]]. discriminate Hh.
Qed.

(** C9.  A run that reads its configuration issues the resource-group
    [create_or_update] first; no later call of the run, rollback included,
    is a call on the resource group, in particular none deletes it; and
    every entry of [created_resources] is one of the six step kinds, never
    the resource group. *)
Theorem C9_resource_group_outside_rollback (cfg : json) (w : World) :
  match read_config cfg with
  | Ok l =>
      fst <$> head (calls (create_vm cfg (initial w)).2) = Some (rg_call l)
  | Raise _ => calls (create_vm cfg (initial w)).2 = []
  end ∧
  Forall (λ ev, is_resource_group_request ev.1 = false)
         (tail (calls (create_vm cfg (initial w)).2)) ∧
  Forall (λ entry, entry.1 ∈ step_kinds)
         (created_resources (create_vm cfg (initial w)).2).
Proof.
  destruct (create_vm_cases cfg w)
    as [(e0 & Hcfg & Heq)|[(l & w1 & evs & committed & out & Hcfg & Hrun & Heq)
       |(l & e0 & w2 & evs & devs & committed & out & Hcfg & Hrun & Heq & Hdevs)]];
    rewrite Hcfg, Heq; cbn.
  - split_and!; constructor.
  - destruct (body_run_no_deletes _ _ _ _ Hrun) as (_ & Htail & Hhead).
    pose proof (body_run_kinds _ _ _ _ Hrun). done.
  - destruct (body_run_no_deletes _ _ _ _ Hrun) as (_ & Htail & Hhead).
    pose proof (body_run_kinds _ _ _ _ Hrun) as Hkinds.
    apply rollback_calls_are_deletions in Hdevs.
    assert (Forall (λ ev : request * result handle,
                      is_resource_group_request ev.1 = false) devs) as Hdel.
    { apply Forall_fmap in Hdevs. eapply Forall_impl; [exact Hdevs|].
      by intros ev (_ & ? & _). }
    assert (evs ≠ []) as Hne by (inversion Hrun; done).
    destruct evs as [|ev evs]; [done|]. cbn in *.
    split_and!; [done|by apply Forall_app|done].
Qed.

(** C6, as the code has it.  When one of the twelve fields [create_vm]
    reads is missing from [cfg], or the key path is there but is not a
    string, [create_vm] raises before anything else happens: no call is
    issued, nothing is printed, nothing is committed and no rollback runs.
    (The content of the key file is not part of this: the file is opened
    inside the [try], after the network interface is created.) *)
Theorem C6_missing_field_raises_before_any_call (cfg : json) (w : World) :
  (∃ path, path ∈ required_fields ∧ get_path cfg path = None)
  ∨ (∃ v, get_path cfg ["vm"; "ssh_public_key_path"] = Some v ∧ is_string v = false) →
  ∃ e, create_vm cfg (initial w) = (Raise e, initial w).
Proof.
  intros Hbad. pose proof (create_vm_run cfg w) as Hrun.
  destruct (read_config cfg) as [l|e] eqn:Hcfg; [exfalso|by exists e].
  destruct (read_config_ok _ _ Hcfg) as (Hall & p & Hp).
  destruct Hbad as [(path & Hin & Hnone)|(v & Hv & Hstr)].
  - rewrite Forall_forall in Hall. apply Hall in Hin. rewrite Hnone in Hin.
    by destruct Hin.
  - rewrite Hp in Hv. by injection Hv as <-.
Qed.

(** C8, as the code has it.  In every run the subnet call is built from
    the configuration alone: its three arguments are the configured names
    of the resource group, of the virtual network and of the subnet, and
    the object the VNet call returned is not used.  The IP configuration
    of the NIC call is built from the identifiers of the objects the
    subnet and public IP calls of the run returned, and the VM call names
    as its network interface the identifier of the object the NIC call
    returned. *)
Theorem C8_wiring_of_the_calls (cfg : json) (w : World) :
  Forall (wired cfg (calls (create_vm cfg (initial w)).2))
         (calls (create_vm cfg (initial w)).2).
Proof.
  destruct (create_vm_cases cfg w)
    as [(e0 & Hcfg & Heq)|[(l & w1 & evs & committed & out & Hcfg & Hrun & Heq)
       |(l & e0 & w2 & evs & devs & committed & out & Hcfg & Hrun & Heq & Hdevs)]];
    rewrite Heq; cbn; [constructor|..];
    destruct (read_config_paths _ _ Hcfg) as (Hrg & _ & _ & Hvnet & Hsubnet).
  - inversion Hrun; subst. repeat constructor; unfold wired; cbn; try done.
    + eexists _, subnet, _, pip, _. split_and!; [in_calls|done|in_calls|done|eassumption].
    + eexists _, nic. split_and!; [in_calls|done|done].
  - apply Forall_app. split.
    + inversion Hrun; subst; repeat constructor; unfold wired; cbn; try done;
        first [ eexists _, subnet, _, pip, _;
                split_and!; [in_calls|done|in_calls|done|eassumption]
              | eexists _, nic; split_and!; [in_calls|done|done] ].
    + apply rollback_calls_are_deletions, Forall_fmap in Hdevs.
      eapply Forall_impl; [exact Hdevs|].
      intros [r res] (_ & _ & rtype & name & Ht & _). unfold wired. cbn in *.
      by destruct r.
Qed.

End Claims.

(** * The claims on concrete runs

    Runs in the simulated cloud of [Sim], on the configuration [Sim.cfg]. *)

Section Runs.
Import Sim.
Local Arguments create_vm : simpl never.

(** Step 4 (the public IP) raises a quota error: the NSG and then the VNet
    are deleted, the subnet is not. *)
Lemma C1_witness :
  first_failed_step (calls (create_vm cfg (initial (failing_at 4))).2)
    = Some (4%nat, quota) ∧
  deleted_kinds (calls (create_vm cfg (initial (failing_at 4))).2) = ["nsg"; "vnet"].
Proof.
  assert (first_failed_step (calls (create_vm cfg (initial (failing_at 4))).2)
          = Some (4%nat, quota)) as Hfail by (vm_compute; reflexivity).
  split; [exact Hfail|].
  destruct (C1_rollback_after_first_failed_step cfg (failing_at 4) 4 quota Hfail)
    as (_ & l & s1 & _ & _ & _ & _ & Hdel & _).
  rewrite Hdel. vm_compute. reflexivity.
Defined.

(** Step 6 (the VM) raises a quota error and the deletion of the NIC raises
    too: the caller still gets the quota error. *)
Lemma C2_witness :
  first_failed_step (calls (create_vm cfg (initial (failing_at_busy 6 ["nic"]))).2)
    = Some (6%nat, quota) ∧
  failed_deletions (calls (create_vm cfg (initial (failing_at_busy 6 ["nic"]))).2)
    = [("nic", VJson (JStr "nic1"), resource_busy)] ∧
  (create_vm cfg (initial (failing_at_busy 6 ["nic"]))).1 = Raise quota.
Proof.
  split; [vm_compute; reflexivity|]. split; [vm_compute; reflexivity|].
  apply (C2_original_error_is_raised cfg (failing_at_busy 6 ["nic"]) 6 quota).
  vm_compute. reflexivity.
Defined.

(** All six steps are created and the VM call returns the object with
    identifier ["/id/vm"]; what [create_vm] returns is [None], which does
    not contain that identifier. *)
Lemma C3_counterexample :
  succeeded_steps (calls (create_vm cfg (initial all_fine)).2)
    = [1; 2; 3; 4; 5; 6]%nat ∧
  (∃ r, last (calls (create_vm cfg (initial all_fine)).2)
          = Some (r, Ok (Handle "/id/vm")) ∧ step_of_request r = Some 6%nat) ∧
  ¬ ∃ v, (create_vm cfg (initial all_fine)).1 = Ok v
         ∧ contains_identifier v (Handle "/id/vm").
Proof.
  split; [vm_compute; reflexivity|]. split.
  - eexists. split; [vm_compute; reflexivity|reflexivity].
  - intros (v & Hv & Hid). vm_compute in Hv. injection Hv as <-.
    destruct Hid as [Hid|Hid]; discriminate Hid.
Qed.

Lemma C3_witness :
  succeeded_steps (calls (create_vm cfg (initial all_fine)).2)
    = [1; 2; 3; 4; 5; 6]%nat ∧
  (create_vm cfg (initial all_fine)).1 = Ok PyNone ∧
  length (created_resources (create_vm cfg (initial all_fine)).2) = 6%nat.
Proof.
  assert (succeeded_steps (calls (create_vm cfg (initial all_fine)).2)
          = [1; 2; 3; 4; 5; 6]%nat) as Hok by (vm_compute; reflexivity).
  split; [exact Hok|].
  destruct (C3_all_steps_created cfg all_fine Hok) as (Hres & _ & _ & Hlen & _).
  split; [exact Hres|exact Hlen].
Defined.

(** The VM step raises.  In one environment every deletion returns, in the
    other the deletion of the NIC raises; [rollback_resources] returns
    [None] in both and [create_vm] hands its caller the same thing in both:
    no report reaches the caller. *)
Lemma C5_counterexample :
  failed_deletions (calls (create_vm cfg (initial (failing_at 6))).2) = [] ∧
  failed_deletions (calls (create_vm cfg (initial (failing_at_busy 6 ["nic"]))).2)
    = [("nic", VJson (JStr "nic1"), resource_busy)] ∧
  (create_vm cfg (initial (failing_at 6))).1
    = (create_vm cfg (initial (failing_at_busy 6 ["nic"]))).1 ∧
  (rollback_resources (JStr "rg1") [("nic", VJson (JStr "nic1"))]
     (initial (failing_at_busy 6 ["nic"]))).1 = Ok PyNone.
Proof. split_and!; vm_compute; reflexivity. Qed.

(** The configuration is complete but the key file cannot be opened: the
    failure shows only after the resource group and five resources were
    created, and it triggers the rollback of four of them. *)
Lemma C6_counterexample :
  key_file no_key_file = None ∧
  (create_vm cfg (initial no_key_file)).1 = Raise no_such_file ∧
  succeeded_steps (calls (create_vm cfg (initial no_key_file)).2)
    = [1; 2; 3; 4; 5]%nat ∧
  deleted_kinds (calls (create_vm cfg (initial no_key_file)).2)
    = ["nic"; "public_ip"; "nsg"; "vnet"].
Proof. split_and!; vm_compute; reflexivity. Qed.

(** [cfg["vm"]["public_ip"]] is missing: a [KeyError] and nothing else. *)
Lemma C6_witness :
  (["vm"; "public_ip"] ∈ required_fields
   ∧ get_path cfg_without_public_ip ["vm"; "public_ip"] = None) ∧
  ∃ e, create_vm cfg_without_public_ip (initial all_fine) = (Raise e, initial all_fine).
Proof.
  assert (["vm"; "public_ip"] ∈ required_fields
          ∧ get_path cfg_without_public_ip ["vm"; "public_ip"] = None) as Hbad.
  { split; [|vm_compute; reflexivity].
    unfold required_fields.
    repeat first [apply list_elem_of_here | apply list_elem_of_further]. }
  split; [exact Hbad|].
  apply (C6_missing_field_raises_before_any_call cfg_without_public_ip all_fine).
  left. exists ["vm"; "public_ip"]. exact Hbad.
Defined.

(** The NIC step raises, so the public IP is rolled back.  Its creation
    call was issued with the configured name ["ip1"]; its delete call is
    issued with the returned object, while the NSG and the VNet are deleted
    by their configured names. *)
Lemma C7_public_ip_deleted_by_object :
  get_path cfg ["vm"; "public_ip"] = Some (JStr "ip1") ∧
  (calls (create_vm cfg (initial (failing_at 5))).2) !! 4%nat
    = Some (PublicIP_create (JStr "rg1") (JStr "ip1") (JStr "eastus"),
            Ok (Handle "/id/public_ip")) ∧
  omap delete_target (calls (create_vm cfg (initial (failing_at 5))).2).*1
    = [("public_ip", VObj (Handle "/id/public_ip"));
       ("nsg", VJson (JStr "nsg1"));
       ("vnet", VJson (JStr "vnet1"))].
Proof. split_and!; vm_compute; reflexivity. Qed.

(** The VNet call returns the object with identifier ["/id/vnet"]; the
    subnet call that follows carries the names ["rg1"], ["vnet1"] and
    ["subnet1"] and not that identifier. *)
Lemma C8_counterexample :
  (calls (create_vm cfg (initial all_fine)).2) !! 1%nat
    = Some (VNet_create (JStr "rg1") (JStr "vnet1") (JStr "eastus"),
            Ok (Handle "/id/vnet")) ∧
  ∃ r, fst <$> (calls (create_vm cfg (initial all_fine)).2) !! 2%nat = Some r
       ∧ step_of_request r = Some 2%nat
       ∧ ¬ uses_handle r (Handle "/id/vnet").
Proof.
  split; [vm_compute; reflexivity|].
  eexists. split; [vm_compute; reflexivity|]. split; [reflexivity|].
  unfold uses_handle. cbn.
  repeat (apply not_elem_of_cons; split; [discriminate|]); apply not_elem_of_nil.
Qed.

(** The resource-group call raises: one call, no deletion, the same error. *)
Lemma C10_witness :
  ∃ l, read_config (World := world) cfg = Ok l ∧
       perform (rg_call l) (failing_at 0) = (Raise quota, failing_at 0) ∧
       calls (create_vm cfg (initial (failing_at 0))).2 = [(rg_call l, Raise quota)] ∧
       (create_vm cfg (initial (failing_at 0))).1 = Raise quota.
Proof.
  eexists. split; [vm_compute; reflexivity|]. split; [vm_compute; reflexivity|].
  edestruct (C10_resource_group_failure cfg (failing_at 0) (failing_at 0))
    as (Heq & _ & _); [vm_compute; reflexivity|vm_compute; reflexivity|].
  rewrite Heq. split; reflexivity.
Defined.

End Runs.

(** * Further properties of create_vm *)

Section MoreOnCreateVm.
Context {World : Type} `{!Cloud World}.
Local Arguments delete_request : simpl never.
Local Arguments rollback_resources : simpl never.
Local Arguments create_vm : simpl never.
Local Arguments create_vm_body : simpl never.
Local Arguments deleted_kinds : simpl never.

(** A body that raises has committed at most the five network resources:
    the ["vm"] entry is appended after the last operation that can raise. *)
Lemma body_run_raise_committed l evs committed e :
  body_run l evs committed (Raise e) →
  ∃ n, (n ≤ 5)%nat ∧ committed.*1 = take n step_kinds.
Proof.
  inversion 1; subst;
    [exists 0%nat|exists 0%nat|exists 1%nat|exists 2%nat|exists 3%nat
    |exists 4%nat|exists 4%nat|exists 5%nat|exists 5%nat];
    (split; [lia|reflexivity]).
Qed.

Lemma steps_of_rollback rg_name entries (devs : list (request * result handle)) :
  devs.*1 = omap (delete_request rg_name) entries →
  omap step_of_request devs.*1 = [].
Proof.
  intros Hdevs. apply rollback_calls_are_deletions in Hdevs.
  induction devs.*1 as [|r rs IH]; [done|].
  inversion Hdevs as [|? ? (Hstep & _) Hrest]; subst. cbn. rewrite Hstep. auto.
Qed.

Lemma failed_deletions_app (tr1 tr2 : list (request * result handle)) :
  failed_deletions (tr1 ++ tr2) = failed_deletions tr1 ++ failed_deletions tr2.
Proof. apply omap_app. Qed.

Lemma body_run_no_failed_deletions l evs committed res :
  body_run l evs committed res → failed_deletions evs = [].
Proof. inversion 1; subst; reflexivity. Qed.

Lemma delete_request_resource_group rg_name entry r :
  delete_request rg_name entry = Some r →
  request_resource_group r = VJson rg_name.
Proof.
  destruct entry as [rtype name]. unfold delete_request.
  case_rtype; intros [= <-]; reflexivity.
Qed.

(** What the body prints: its lines are appended to what was printed
    before, none of them is a line of the rollback, and a body that ends
    normally ends on the line announcing the VM. *)
Lemma create_vm_body_stdout l w out0 :
  ∃ out,
    stdout (create_vm_body l (State w [] [] out0)).2 = out0 ++ out ∧
    deleting_lines out = [] ∧ failed_lines out = [] ∧
    ((create_vm_body l (State w [] [] out0)).1 = Ok tt →
     last out = Some (OutCreated (vm_name l) (location l))).
Proof.
  unfold create_vm_body, bind, lift, print, call, append_created, read_stripped. cbn.
  repeat match goal with
         | |- context [perform ?r ?x] => destruct (perform r x) as [[?|?] ?]; cbn
         | |- context [open_read ?p ?x] => destruct (open_read p x) as [[?|?] ?]; cbn
         | |- context [ip_configuration_init ?k] =>
             destruct (ip_configuration_init k) as [?|?]; cbn
         end;
    rewrite <- ?app_assoc; cbn;
    eexists; (split; [reflexivity|]); split_and!; done.
Qed.

(** None of the lines the body prints is a line of the [except] clause or
    of the rollback. *)
Lemma create_vm_body_no_rollback_line l w out0 :
  ∃ out,
    stdout (create_vm_body l (State w [] [] out0)).2 = out0 ++ out ∧
    Forall (λ o, is_rollback_line o = false) out.
Proof.
  unfold create_vm_body, bind, lift, print, call, append_created, read_stripped. cbn.
  repeat match goal with
         | |- context [perform ?r ?x] => destruct (perform r x) as [[?|?] ?]; cbn
         | |- context [open_read ?p ?x] => destruct (open_read p x) as [[?|?] ?]; cbn
         | |- context [ip_configuration_init ?k] =>
             destruct (ip_configuration_init k) as [?|?]; cbn
         end;
    rewrite <- ?app_assoc; cbn;
    eexists; (split; [reflexivity|]); repeat constructor.
Qed.

(** X1.  [create_vm] only ever deletes network interfaces, public IPs,
    security groups and virtual networks: whatever the cloud answers, no
    run issues a delete call for the VM, for a subnet or for the resource
    group. *)
Theorem X1_only_network_resources_are_deleted (cfg : json) (w : World) :
  Forall (λ kind, kind ∈ ["nic"; "public_ip"; "nsg"; "vnet"])
         (deleted_kinds (calls (create_vm cfg (initial w)).2)).
Proof.
  destruct (create_vm_cases cfg w)
    as [(e0 & _ & Heq)|[(l & w1 & evs & committed & out & _ & Hrun & Heq)
       |(l & e0 & w2 & evs & devs & committed & out & _ & Hrun & Heq & Hdevs)]];
    rewrite Heq; cbn.
  - constructor.
  - rewrite (proj1 (body_run_no_deletes _ _ _ _ Hrun)). constructor.
  - rewrite deleted_kinds_app, (proj1 (body_run_no_deletes _ _ _ _ Hrun)). cbn.
    destruct (body_run_raise_committed _ _ _ _ Hrun) as (n & Hn & Hkinds).
    rewrite (deleted_kinds_rollback _ _ _ Hdevs).
    + rewrite fmap_reverse, Hkinds.
      do 6 (destruct n as [|n]; [vm_compute; repeat constructor; set_solver|]). lia.
    + rewrite fmap_reverse, Hkinds. apply Forall_reverse, Forall_take, Forall_forall.
      done.
Qed.

(** X2.  No step is retried or skipped: in every run the creation calls
    issued are steps 1, 2, ..., n in that order for some n up to 6, each
    issued once; and a run issues at most eleven calls in all. *)
Theorem X2_steps_in_order_once (cfg : json) (w : World) :
  ∃ n, (n ≤ 6)%nat ∧
       omap step_of_request (calls (create_vm cfg (initial w)).2).*1 = seq 1 n ∧
       (length (calls (create_vm cfg (initial w)).2) ≤ 11)%nat.
Proof.
  destruct (create_vm_cases cfg w)
    as [(e0 & _ & Heq)|[(l & w1 & evs & committed & out & _ & Hrun & Heq)
       |(l & e0 & w2 & evs & devs & committed & out & _ & Hrun & Heq & Hdevs)]];
    rewrite Heq; cbn.
  - exists 0%nat. cbn. split_and!; [lia|done|lia].
  - inversion Hrun; subst. exists 6%nat. cbn. split_and!; [lia|done|lia].
  - rewrite fmap_app, omap_app, (steps_of_rollback _ _ _ Hdevs), app_nil_r.
    rewrite length_app, <- (length_fmap fst devs), Hdevs.
    inversion Hrun; subst; cbn;
      [exists 0%nat|exists 1%nat|exists 2%nat|exists 3%nat|exists 4%nat
      |exists 4%nat|exists 5%nat|exists 5%nat|exists 6%nat];
      (split_and!; [lia|reflexivity|vm_compute; lia]).
Qed.

(** X3.  When the resource group and the five network resources are
    created and no creation call raised, yet the VM step was not created,
    the key file could not be read: [create_vm] raises, the VM call is
    never issued, and the NIC, the public IP, the NSG and the VNet are
    deleted in that order. *)
Theorem X3_unreadable_key_file_rolls_back (cfg : json) (w : World) :
  succeeded_steps (calls (create_vm cfg (initial w)).2) = [1; 2; 3; 4; 5]%nat →
  first_failed_step (calls (create_vm cfg (initial w)).2) = None →
  (∃ e, (create_vm cfg (initial w)).1 = Raise e) ∧
  omap step_of_request (calls (create_vm cfg (initial w)).2).*1
    = [1; 2; 3; 4; 5]%nat ∧
  deleted_kinds (calls (create_vm cfg (initial w)).2)
    = ["nic"; "public_ip"; "nsg"; "vnet"].
Proof.
  intros Hok Hnone.
  destruct (create_vm_cases cfg w)
    as [(e0 & _ & Heq)|[(l & w1 & evs & committed & out & _ & Hrun & Heq)
       |(l & e0 & w2 & evs & devs & committed & out & _ & Hrun & Heq & Hdevs)]];
    rewrite Heq in Hok, Hnone |- *; cbn in Hok, Hnone |- *.
  - discriminate.
  - inversion Hrun; subst. discriminate.
  - rewrite succeeded_steps_app, (succeeded_steps_rollback _ _ _ Hdevs) in Hok.
    rewrite first_failed_step_app, (first_failed_step_rollback _ _ _ Hdevs) in Hnone.
    rewrite fmap_app, omap_app, (steps_of_rollback _ _ _ Hdevs), app_nil_r.
    rewrite deleted_kinds_app. unfold deleted_kinds at 2. rewrite Hdevs.
    inversion Hrun; subst; try discriminate.
    split; [by eexists|]. split; reflexivity.
Qed.

(** X4.  What a run that got as far as its first call ends on.  If it
    returns, it ends on the line announcing the VM and has printed no line
    of the [except] clause or of the rollback.  If it raises [e], it has
    printed the error line for [e] and ends on the line announcing that
    the rollback is complete, also when deletions raised. *)
Theorem X4_last_line_printed (cfg : json) (w : World) (l : locals) :
  read_config cfg = Ok l →
  calls (create_vm cfg (initial w)).2 ≠ [] →
  match (create_vm cfg (initial w)).1 with
  | Ok _ =>
      last (stdout (create_vm cfg (initial w)).2)
        = Some (OutCreated (vm_name l) (location l)) ∧
      Forall (λ o, is_rollback_line o = false) (stdout (create_vm cfg (initial w)).2)
  | Raise e =>
      last (stdout (create_vm cfg (initial w)).2) = Some OutRollbackComplete ∧
      OutError e ∈ stdout (create_vm cfg (initial w)).2
  end.
Proof.
  intros Hcfg _. pose proof (create_vm_run cfg w) as Hrun. rewrite Hcfg in Hrun.
  destruct Hrun as (s1 & res & Hbody & _ & Heq).
  destruct (create_vm_body_stdout l w [OutStarting (vm_name l) (location l)])
    as (out & Hout & _ & _ & Hlast).
  destruct (create_vm_body_no_rollback_line l w [OutStarting (vm_name l) (location l)])
    as (out' & Hout' & Hquiet).
  rewrite Hbody in Hout, Hout', Hlast. cbn in Hout, Hout', Hlast.
  destruct res as [[]|e]; rewrite Heq; cbn.
  - split.
    + by rewrite Hout, last_cons, (Hlast eq_refl).
    + rewrite Hout'. by constructor.
  - destruct (rollback_resources_run (resource_group l) (created_resources s1)
                (State (world s1) (created_resources s1) (calls s1)
                       (stdout s1 ++ [OutError e; OutRollingBack])))
      as (w2 & devs & dout & -> & _). cbn. split.
    + by rewrite !app_assoc, last_snoc.
    + apply elem_of_app. left. apply elem_of_app. right. apply list_elem_of_here.
Qed.

(** X5.  The failure lines of a whole run of [create_vm] are faithful: the
    lines printed for deletions that failed are exactly the delete calls of
    the run that raised, in the order of the calls, each with the kind, the
    stored name and the exception. *)
Theorem X5_failure_lines_are_the_failed_deletions (cfg : json) (w : World) :
  failed_lines (stdout (create_vm cfg (initial w)).2)
    = failed_deletions (calls (create_vm cfg (initial w)).2).
Proof.
  pose proof (create_vm_run cfg w) as Hrun.
  destruct (read_config cfg) as [l|e0]; [|by rewrite Hrun].
  destruct Hrun as (s1 & res & Hbody & Hrun & Heq).
  destruct (create_vm_body_stdout l w [OutStarting (vm_name l) (location l)])
    as (out & Hout & _ & Hfail & _).
  rewrite Hbody in Hout. cbn in Hout.
  pose proof (body_run_no_failed_deletions _ _ _ _ Hrun) as Hnone.
  destruct res as [[]|e]; rewrite Heq; cbn.
  - rewrite Hout, Hnone. unfold failed_lines in *. cbn. exact Hfail.
  - destruct (rollback_resources_run (resource_group l) (created_resources s1)
                (State (world s1) (created_resources s1) (calls s1)
                       (stdout s1 ++ [OutError e; OutRollingBack])))
      as (w2 & devs & dout & -> & _ & _ & Hlines). cbn.
    rewrite failed_deletions_app, Hnone, Hout. cbn.
    unfold failed_lines in *. rewrite !omap_app, Hfail, Hlines. cbn.
    by rewrite app_nil_r.
Qed.

(** X7.  Every call of a run, creation or deletion, is issued in the
    resource group the configuration names: no run touches a resource of
    another resource group. *)
Theorem X7_every_call_in_the_configured_resource_group
    (cfg : json) (w : World) (l : locals) :
  read_config cfg = Ok l →
  Forall (λ ev, request_resource_group ev.1 = VJson (resource_group l))
         (calls (create_vm cfg (initial w)).2).
Proof.
  intros Hl.
  destruct (create_vm_cases cfg w)
    as [(e0 & Hcfg & Heq)|[(l' & w1 & evs & committed & out & Hcfg & Hrun & Heq)
       |(l' & e0 & w2 & evs & devs & committed & out & Hcfg & Hrun & Heq & Hdevs)]];
    rewrite Hl in Hcfg; [discriminate|injection Hcfg as <-..]; rewrite Heq; cbn.
  - inversion Hrun; subst. repeat constructor.
  - apply Forall_app. split; [inversion Hrun; subst; repeat constructor|].
    apply (Forall_fmap fst (λ r, request_resource_group r = VJson (resource_group l))).
    rewrite Hdevs. apply Forall_forall. intros r Hr.
    apply list_elem_of_omap in Hr as (entry & _ & Hreq).
    by apply delete_request_resource_group in Hreq.
Qed.

Lemma get_path_subscript v k x :
  get_path v [k] = Some x → subscript v k = Ok x.
Proof.
  unfold subscript. cbn. destruct v; try discriminate.
  destruct (fields !! k); [|discriminate]. by intros [= ->].
Qed.

Lemma get_path_subscript2 v k1 k2 x :
  get_path v [k1; k2] = Some x → subscript2 v k1 k2 = Ok x.
Proof.
  unfold subscript2, result_bind, subscript. cbn. destruct v; try discriminate.
  destruct (fields !! k1) as [inner|]; [|discriminate].
  destruct inner; try discriminate.
  destruct (fields0 !! k2); [|discriminate]. by intros [= ->].
Qed.

(** A run that reads its configuration starts by printing the starting
    line, with the VM name and the location it read. *)
Lemma create_vm_prints_starting_line cfg w l :
  read_config cfg = Ok l →
  head (stdout (create_vm cfg (initial w)).2)
    = Some (OutStarting (vm_name l) (location l)).
Proof.
  intros Hcfg. pose proof (create_vm_run cfg w) as Hrun. rewrite Hcfg in Hrun.
  destruct Hrun as (s1 & res & Hbody & _ & Heq).
  destruct (create_vm_body_stdout l w [OutStarting (vm_name l) (location l)])
    as (out & Hout & _).
  rewrite Hbody in Hout. cbn in Hout.
  destruct res as [[]|e]; rewrite Heq; cbn; [by rewrite Hout|].
  destruct (rollback_resources_run (resource_group l) (created_resources s1)
              (State (world s1) (created_resources s1) (calls s1)
                     (stdout s1 ++ [OutError e; OutRollingBack])))
    as (w2 & devs & dout & -> & _). cbn. by rewrite Hout.
Qed.

(** X6.  The converse of the check on the configuration: when the twelve
    fields are there and the key path is a string, whatever their values,
    [create_vm] gets past reading [cfg]: it prints the starting line for
    [cfg["vm"]["name"]] and [cfg["resource_group"]["location"]], and the
    first call it issues, if it gets to issue one, asks to ensure the
    resource group [cfg["resource_group"]["name"]] in that location. *)
Theorem X6_complete_configuration_reaches_the_cloud (cfg : json) (w : World) :
  Forall (λ path, is_Some (get_path cfg path)) required_fields →
  (∃ p, get_path cfg ["vm"; "ssh_public_key_path"] = Some (JStr p)) →
  ∃ vm rg loc,
    get_path cfg ["vm"; "name"] = Some vm ∧
    get_path cfg ["resource_group"; "name"] = Some rg ∧
    get_path cfg ["resource_group"; "location"] = Some loc ∧
    head (stdout (create_vm cfg (initial w)).2) = Some (OutStarting vm loc) ∧
    (calls (create_vm cfg (initial w)).2 = []
     ∨ fst <$> head (calls (create_vm cfg (initial w)).2)
       = Some (RG_create_or_update rg loc)).
Proof.
  intros Hall [p Hp]. unfold required_fields in Hall.
  apply Forall_cons in Hall as [[sub Hsub] Hall].
  apply Forall_cons in Hall as [[rg Hrg] Hall].
  apply Forall_cons in Hall as [[loc Hloc] Hall].
  apply Forall_cons in Hall as [[vm Hvm] Hall].
  repeat (apply Forall_cons in Hall as [[? ?] Hall]).
  match goal with
  | H : get_path cfg ["vm"; "ssh_public_key_path"] = Some ?x |- _ =>
      lazymatch x with
      | JStr _ => fail
      | _ => rewrite Hp in H; injection H as ?; subst
      end
  end.
  exists vm, rg, loc. split; [exact Hvm|]. split; [exact Hrg|]. split; [exact Hloc|].
  assert (∃ l, read_config cfg = Ok l) as (l & Hl).
  { repeat match goal with
           | H : get_path cfg [_; _] = Some _ |- _ => apply get_path_subscript2 in H
           | H : get_path cfg [_] = Some _ |- _ => apply get_path_subscript in H
           end.
    unfold read_config.
    repeat match goal with
           | H : subscript2 cfg _ _ = Ok _ |- _ => rewrite H; clear H
           | H : subscript cfg _ = Ok _ |- _ => rewrite H; clear H
           end.
    cbn. by eexists. }
  destruct (read_config_paths _ _ Hl) as (Prg & Ploc & Pvm & _).
  rewrite Hrg in Prg. rewrite Hloc in Ploc. rewrite Hvm in Pvm.
  injection Prg as ->. injection Ploc as ->. injection Pvm as ->.
  split; [by apply create_vm_prints_starting_line|]. right.
  change (RG_create_or_update (resource_group l) (location l)) with (rg_call l).
  destruct (create_vm_cases cfg w)
    as [(e0 & Hcfg & Heq)|[(l' & w1 & evs & committed & out & Hcfg & Hrun & Heq)
       |(l' & e0 & w2 & evs & devs & committed & out & Hcfg & Hrun & Heq & Hdevs)]];
    rewrite Hl in Hcfg; [discriminate|injection Hcfg as <-..]; rewrite Heq; cbn;
    destruct (body_run_no_deletes _ _ _ _ Hrun) as (_ & _ & Hhead); [done|].
  by destruct evs.
Qed.

End MoreOnCreateVm.

(** * stop_vm and deallocate_vm: properties *)

Section PowerFacts.
Context {World : Type} `{!Compute World}.

Lemma get_path_none_subscript2 v k1 k2 :
  get_path v [k1; k2] = None → ∃ e, subscript2 v k1 k2 = Raise e.
Proof.
  unfold subscript2, result_bind, subscript. cbn.
  destruct v; eauto. destruct (fields !! k1) as [inner|]; eauto.
  destruct inner; eauto. destruct (fields0 !! k2); [discriminate|eauto].
Qed.

(** X8.  [stop_vm] and [deallocate_vm] take the subscription from
    [cfg["azure"]["subscription_id"]]: on a configuration without it, both
    raise before anything is printed or asked of the cloud, also when the
    configuration is complete for [create_vm], which reads
    [cfg["subscription_id"]]. *)
Theorem X8_stop_needs_the_azure_section (cfg : json) (s : power_state World) :
  get_path cfg ["azure"; "subscription_id"] = None →
  ∃ e, stop_vm cfg s = (Raise e, s) ∧ deallocate_vm cfg s = (Raise e, s).
Proof.
  intros Hnone. apply get_path_none_subscript2 in Hnone as [e He].
  exists e. unfold stop_vm, deallocate_vm, read_power_config. rewrite He. done.
Qed.

(** X9.  [stop_vm] and [deallocate_vm] accept the same configurations and
    act on the same VM.  Either both raise the same exception before
    anything happens, or each issues exactly one call, a power-off and a
    deallocation of the VM [cfg["vm"]["name"]] in the resource group
    [cfg["resource_group"]["name"]] under the subscription
    [cfg["azure"]["subscription_id"]]; an exception of that call leaves
    the function unchanged, and the closing line is printed only when the
    call returned. *)
Theorem X9_stop_and_deallocate_one_call (cfg : json) (s : power_state World) :
  (∃ e, stop_vm cfg s = (Raise e, s) ∧ deallocate_vm cfg s = (Raise e, s))
  ∨ (∃ sub rg vm res1 res2,
       get_path cfg ["azure"; "subscription_id"] = Some sub ∧
       get_path cfg ["resource_group"; "name"] = Some rg ∧
       get_path cfg ["vm"; "name"] = Some vm ∧
       power_calls (stop_vm cfg s).2
         = power_calls s ++ [(VM_power_off sub rg vm, res1)] ∧
       power_calls (deallocate_vm cfg s).2
         = power_calls s ++ [(VM_deallocate sub rg vm, res2)] ∧
       (stop_vm cfg s).1
         = match res1 with Ok _ => Ok PyNone | Raise e => Raise e end ∧
       (deallocate_vm cfg s).1
         = match res2 with Ok _ => Ok PyNone | Raise e => Raise e end ∧
       power_stdout (stop_vm cfg s).2
         = power_stdout s
           ++ OutStopping vm :: match res1 with Ok _ => [OutStopped vm] | Raise _ => [] end ∧
       power_stdout (deallocate_vm cfg s).2
         = power_stdout s
           ++ OutDeallocating vm
              :: match res2 with Ok _ => [OutDeallocated vm] | Raise _ => [] end).
Proof.
  unfold stop_vm, deallocate_vm, read_power_config.
  destruct (subscript2 cfg "azure" "subscription_id") as [sub|e] eqn:Hsub;
    [|left; by exists e].
  destruct (subscript2 cfg "resource_group" "name") as [rg|e] eqn:Hrg;
    [|left; by exists e].
  destruct (subscript2 cfg "vm" "name") as [vm|e] eqn:Hvm; [|left; by exists e].
  apply subscript2_get_path in Hsub, Hrg, Hvm. cbn. right.
  unfold power_operation.
  destruct (perform_power (VM_power_off sub rg vm) (power_world s)) as [res1 w1].
  destruct (perform_power (VM_deallocate sub rg vm) (power_world s)) as [res2 w2].
  exists sub, rg, vm, res1, res2.
  destruct res1, res2; cbn; split_and!; done.
Qed.

End PowerFacts.

Section TwoSubscriptions.
Context {World1 : Type} `{!Cloud World1} {World2 : Type} `{!Compute World2}.

(** X10.  The two halves of the module read the subscription from
    different places and neither looks at the other's: whatever is put
    under [cfg["azure"]] changes nothing to a run of [create_vm], and
    whatever is put under [cfg["subscription_id"]] changes nothing to
    [stop_vm] and [deallocate_vm]. *)
Theorem X10_subscription_read_in_two_places
    (fields : gmap string json) (v : json) (w : World1) (s : power_state World2) :
  create_vm (JObj (<["azure" := v]> fields)) (initial w)
    = create_vm (JObj fields) (initial w) ∧
  stop_vm (JObj (<["subscription_id" := v]> fields)) s = stop_vm (JObj fields) s ∧
  deallocate_vm (JObj (<["subscription_id" := v]> fields)) s
    = deallocate_vm (JObj fields) s.
Proof.
  split_and!.
  - unfold create_vm, read_config, subscript2, subscript, result_bind, bind, lift.
    by rewrite !lookup_insert_ne.
  - unfold stop_vm, read_power_config, subscript2, subscript, result_bind.
    by rewrite !lookup_insert_ne.
  - unfold deallocate_vm, read_power_config, subscript2, subscript, result_bind.
    by rewrite !lookup_insert_ne.
Qed.

End TwoSubscriptions.

(** * The interactive menus: properties *)

(** Runs the menu functions down to the calls of the environment.  The
    state is evaluated at every step, so that it stays a record of four
    fields. *)
Ltac menu_unfold :=
  cbv beta iota zeta delta
    [main interactive_menu interactive_mymlops_project interactive_creation
     read_resource_group print_header_for print_divider status read_choice
     read_input load_app_config call_create_resource_group
     call_delete_resource_group cprint cbind cret clift
     console_world inputs_read service_calls console_out fst snd].

(** The same for the two outer menus, leaving [interactive_creation]
    folded. *)
Ltac menu_unfold_outer :=
  cbv beta iota zeta delta
    [main interactive_menu interactive_mymlops_project print_header_for
     print_divider status read_choice read_input load_app_config cprint cbind
     cret clift console_world inputs_read service_calls console_out].

Section MenuFacts.
Context {World : Type} `{!Console World}.
Local Arguments interactive_creation : simpl never.
Local Arguments dict_get : simpl never.

(** What one run of [interactive_creation] adds: at most one line read and
    at most one call, and a call only for the choices 1, 2 and 3. *)
Lemma interactive_creation_effects cfg s :
  ∃ extra ins,
    service_calls (interactive_creation cfg s).2 = service_calls s ++ extra ∧
    inputs_read (interactive_creation cfg s).2 = inputs_read s ++ ins ∧
    (length extra ≤ 1)%nat ∧ (length ins ≤ 1)%nat ∧
    (extra ≠ [] →
     ∃ c, ins = [c] ∧ or_default (str_strip c) "1" ∈ ["1"; "2"; "3"]).
Proof.
  destruct s as [w ins0 calls0 out0]. menu_unfold.
  destruct (input w) as [[raw|e] w1]; cbn.
  2: { exists [], []. rewrite !app_nil_r. split_and!; cbn; done || lia. }
  destruct (String.eqb (or_default (str_strip raw) "1") "1") eqn:H1;
    [apply String.eqb_eq in H1; rewrite ?H1|
     destruct (String.eqb (or_default (str_strip raw) "1") "2") eqn:H2;
       [apply String.eqb_eq in H2; rewrite ?H2|
        destruct (String.eqb (or_default (str_strip raw) "1") "3") eqn:H3;
          [apply String.eqb_eq in H3; rewrite ?H3|]]];
    cbn;
    repeat match goal with
           | |- context [dict_get ?d ?k ?x] => destruct (dict_get d k x) as [?|?]; cbn
           | |- context [create_resource_group ?a ?b ?c ?x] =>
               destruct (create_resource_group a b c x) as [[[]|?] ?]; cbn
           | |- context [delete_resource_group ?a ?b ?x] =>
               destruct (delete_resource_group a b x) as [[[]|?] ?]; cbn
           end;
    first
      [ exists [], [raw]; rewrite ?app_nil_r; split_and!; cbn; done || lia
      | eexists [_], [raw]; split_and!; [reflexivity|reflexivity|cbn; lia|cbn; lia|];
        intros _; exists raw; split; [done|];
        first [rewrite H1 | rewrite H2 | rewrite H3];
        repeat first [apply list_elem_of_here | apply list_elem_of_further] ].
Qed.

Lemma dict_get_default fields k d :
  dict_get (JObj fields) k d = Returned (default d (fields !! k)).
Proof. unfold dict_get. by destruct (fields !! k). Qed.

(** X11.  In the service menu the choices 2 and 3 do the same thing: each
    issues one call, [delete_resource_group] of the configured resource
    group, and no creation call, though 3 is listed as the creation of a
    virtual machine.  A missing name is passed as [None] and a missing
    subscription as an empty dict; when the call raises, the exception
    leaves the function and the closing status line is not printed. *)
Theorem X11_choices_2_and_3_delete_the_resource_group
    (fields rgf : gmap string json) (s : console_state World) (raw : string) (w1 : World) :
  input (console_world s) = (Returned raw, w1) →
  or_default (str_strip raw) "1" = "2" ∨ or_default (str_strip raw) "1" = "3" →
  default (JObj ∅) (fields !! "resource_group") = JObj rgf →
  ∃ res,
    service_calls (interactive_creation (JObj fields) s).2
      = service_calls s
        ++ [(DeleteResourceGroup (default JNull (rgf !! "name"))
                                 (default (JObj ∅) (fields !! "subscription_id")),
             res)] ∧
    (interactive_creation (JObj fields) s).1
      = match res with Returned _ => Returned PyNone | Failed e => Failed e end ∧
    last (console_out (interactive_creation (JObj fields) s).2)
      = Some match res with
             | Returned _ => ConStatus "success" MsgDeleteCompleted
             | Failed _ =>
                 ConStatus "action"
                   (MsgDeleting (default JNull (rgf !! "name"))
                                (default (JStr "eastus") (rgf !! "location")))
             end.
Proof.
  intros Hin Hchoice Hrg. destruct s as [w ins0 calls0 out0]. cbn in Hin.
  menu_unfold. rewrite Hin. cbn.
  destruct Hchoice as [-> | ->]; cbn;
    rewrite !dict_get_default, Hrg; cbn; rewrite !dict_get_default; cbn;
    destruct (delete_resource_group _ _ w1) as [[[]|e] w2]; cbn;
    eexists; (split_and!; [reflexivity|reflexivity|by rewrite last_snoc]).
Qed.

(** X12.  In the service menu the choice 1, which is also what an empty
    line means, issues one call, [create_resource_group], with the
    configured name, location and subscription; a missing name is passed
    as [None], a missing location as ["eastus"] and a missing subscription
    as an empty dict, without any exception.  When the call raises, the
    exception leaves the function and the closing status line is not
    printed. *)
Theorem X12_choice_1_creates_the_resource_group
    (fields rgf : gmap string json) (s : console_state World) (raw : string) (w1 : World) :
  input (console_world s) = (Returned raw, w1) →
  or_default (str_strip raw) "1" = "1" →
  default (JObj ∅) (fields !! "resource_group") = JObj rgf →
  ∃ res,
    service_calls (interactive_creation (JObj fields) s).2
      = service_calls s
        ++ [(CreateResourceGroup (default JNull (rgf !! "name"))
                                 (default (JStr "eastus") (rgf !! "location"))
                                 (default (JObj ∅) (fields !! "subscription_id")),
             res)] ∧
    (interactive_creation (JObj fields) s).1
      = match res with Returned _ => Returned PyNone | Failed e => Failed e end ∧
    last (console_out (interactive_creation (JObj fields) s).2)
      = Some match res with
             | Returned _ => ConStatus "success" MsgCreateCompleted
             | Failed _ =>
                 ConStatus "action"
                   (MsgCreating (default JNull (rgf !! "name"))
                                (default (JStr "eastus") (rgf !! "location")))
             end.
Proof.
  intros Hin Hchoice Hrg. destruct s as [w ins0 calls0 out0]. cbn in Hin.
  menu_unfold. rewrite Hin. cbn. rewrite Hchoice. cbn.
  rewrite !dict_get_default, Hrg. cbn. rewrite !dict_get_default. cbn.
  destruct (create_resource_group _ _ _ w1) as [[[]|e] w2]; cbn;
    eexists; (split_and!; [reflexivity|reflexivity|by rewrite last_snoc]).
Qed.

(** X13.  Any other choice of the service menu, the listed 4, 98 and 99
    included, does nothing: the configuration is not even read, no call is
    issued, and the function returns [None] after the prompt. *)
Theorem X13_other_service_choices_do_nothing
    (cfg : json) (s : console_state World) (raw : string) (w1 : World) :
  input (console_world s) = (Returned raw, w1) →
  or_default (str_strip raw) "1" ∉ ["1"; "2"; "3"] →
  (interactive_creation cfg s).1 = Returned PyNone ∧
  service_calls (interactive_creation cfg s).2 = service_calls s ∧
  inputs_read (interactive_creation cfg s).2 = inputs_read s ++ [raw] ∧
  console_world (interactive_creation cfg s).2 = w1 ∧
  last (console_out (interactive_creation cfg s).2)
    = Some (ConPrompt "Enter choice [1-2] (default 1): ").
Proof.
  intros Hin Hchoice. destruct s as [w ins0 calls0 out0]. cbn in Hin.
  menu_unfold. rewrite Hin. cbn.
  destruct (String.eqb_spec (or_default (str_strip raw) "1") "1") as [Heq|_];
    [rewrite Heq in Hchoice; exfalso; apply Hchoice; in_calls|].
  destruct (String.eqb_spec (or_default (str_strip raw) "1") "2") as [Heq|_];
    [rewrite Heq in Hchoice; exfalso; apply Hchoice; in_calls|].
  destruct (String.eqb_spec (or_default (str_strip raw) "1") "3") as [Heq|_];
    [rewrite Heq in Hchoice; exfalso; apply Hchoice; in_calls|].
  cbn. split_and!; try done. by rewrite last_snoc.
Qed.

(** X14.  In the project menu, every choice but 1 ends the program
    without doing anything: the listed 2 and 3 and the unlisted 4 return
    silently after the prompt, and anything else returns after the status
    line for an invalid choice.  Nothing more is read and no call is
    issued. *)
Theorem X14_other_project_choices_do_nothing
    (s : console_state World) (raw : string) (w1 : World) :
  input (console_world s) = (Returned raw, w1) →
  or_default (str_strip raw) "1" ≠ "1" →
  (interactive_menu s).1 = Returned PyNone ∧
  service_calls (interactive_menu s).2 = service_calls s ∧
  inputs_read (interactive_menu s).2 = inputs_read s ++ [raw] ∧
  console_world (interactive_menu s).2 = w1 ∧
  last (console_out (interactive_menu s).2)
    = Some (if bool_decide (or_default (str_strip raw) "1" ∈ ["2"; "3"; "4"])
            then ConPrompt (String.append newline "Enter choice [1-3] (default 1): ")
            else ConStatus "error" MsgInvalidChoice).
Proof.
  intros Hin Hne. destruct s as [w ins0 calls0 out0]. cbn in Hin.
  menu_unfold. rewrite Hin. cbn.
  destruct (String.eqb_spec (or_default (str_strip raw) "1") "1") as [|_]; [done|].
  case_bool_decide as Hvalid; cbn; case_bool_decide as Hlisted; cbn;
    try (split_and!; try done; by rewrite last_snoc).
  - exfalso. apply Hlisted. apply elem_of_cons in Hvalid as [|]; done.
  - exfalso. apply Hvalid. by apply list_elem_of_further.
Qed.

(** X16.  When the project 1 is chosen and the configuration file
    [cfg/config_mymlops_dev.json] does not exist, the program raises
    [FileNotFoundError] for that path straight after the choice: no header
    is printed, no second choice is read and no call is issued. *)
Theorem X16_missing_configuration_file
    (s : console_state World) (raw : string) (w1 : World) :
  input (console_world s) = (Returned raw, w1) →
  or_default (str_strip raw) "1" = "1" →
  path_exists (config_path "config_mymlops_dev.json") w1 = false →
  (main s).1 = Failed (FileNotFoundError (config_path "config_mymlops_dev.json")) ∧
  service_calls (main s).2 = service_calls s ∧
  inputs_read (main s).2 = inputs_read s ++ [raw] ∧
  console_world (main s).2 = w1 ∧
  last (console_out (main s).2)
    = Some (ConPrompt (String.append newline "Enter choice [1-3] (default 1): ")).
Proof.
  intros Hin Hchoice Hfile. destruct s as [w ins0 calls0 out0]. cbn in Hin.
  menu_unfold. rewrite Hin. cbn. rewrite Hchoice.
  change (bool_decide ("1" ∈ ["1"; "2"; "3"; "4"])) with true. cbn.
  rewrite Hfile. cbn.
  split_and!; try done. by rewrite last_snoc.
Qed.

(** X15.  A run of [main] reads at most three lines and issues at most one
    call of the imported functions, and it issues one only after three
    lines were read of which the first two mean 1 and the third means 1, 2
    or 3 (an empty line means 1). *)
Theorem X15_main_issues_at_most_one_call (s : console_state World) :
  ∃ extra ins,
    service_calls (main s).2 = service_calls s ++ extra ∧
    inputs_read (main s).2 = inputs_read s ++ ins ∧
    (length extra ≤ 1)%nat ∧ (length ins ≤ 3)%nat ∧
    (extra ≠ [] →
     ∃ c1 c2 c3,
       ins = [c1; c2; c3] ∧
       or_default (str_strip c1) "1" = "1" ∧
       or_default (str_strip c2) "1" = "1" ∧
       or_default (str_strip c3) "1" ∈ ["1"; "2"; "3"]).
Proof.
  destruct s as [w ins0 calls0 out0]. menu_unfold_outer.
  destruct (input w) as [[c1|e] w1]; cbn;
    [|exists [], []; rewrite !app_nil_r; split_and!; cbn; done || lia].
  case_bool_decide as Hvalid; cbn;
    [|exists [], [c1]; rewrite !app_nil_r; split_and!; cbn; done || lia].
  destruct (String.eqb_spec (or_default (str_strip c1) "1") "1") as [H1|_]; cbn;
    [|exists [], [c1]; rewrite !app_nil_r; split_and!; cbn; done || lia].
  destruct (path_exists _ w1); cbn;
    [|exists [], [c1]; rewrite !app_nil_r; split_and!; cbn; done || lia].
  destruct (json_load _ w1) as [[cfg|e] w2]; cbn;
    [|exists [], [c1]; rewrite !app_nil_r; split_and!; cbn; done || lia].
  destruct (input w2) as [[c2|e] w3]; cbn;
    [|exists [], [c1]; rewrite !app_nil_r; split_and!; cbn; done || lia].
  destruct (String.eqb_spec (or_default (str_strip c2) "1") "1") as [H2|_]; cbn;
    [|exists [], [c1; c2]; rewrite !app_nil_r, <- !app_assoc;
      split_and!; cbn; done || lia].
  match goal with
  | |- context [interactive_creation cfg ?s3] =>
      destruct (interactive_creation_effects cfg s3)
        as (extra & ins & Hcalls & Hread & Hextra & Hins & Hwhen);
      destruct (interactive_creation cfg s3) as [r [w4 ins4 calls4 out4]]
  end.
  cbn in Hcalls, Hread |- *. subst calls4 ins4.
  exists extra, ([c1; c2] ++ ins). rewrite <- !app_assoc. cbn.
  split_and!; [done|done|done|lia|].
  intros Hne. destruct (Hwhen Hne) as (c3 & -> & Hc3). by exists c1, c2, c3.
Qed.

End MenuFacts.

(** * The further properties on concrete runs *)

Section MoreRuns.
Import Sim.
Local Existing Instance PowerSim.compute.
Local Arguments create_vm : simpl never.

(** The key file is missing in an otherwise helpful cloud. *)
Lemma X3_witness :
  succeeded_steps (calls (create_vm cfg (initial no_key_file)).2)
    = [1; 2; 3; 4; 5]%nat ∧
  first_failed_step (calls (create_vm cfg (initial no_key_file)).2) = None ∧
  deleted_kinds (calls (create_vm cfg (initial no_key_file)).2)
    = ["nic"; "public_ip"; "nsg"; "vnet"].
Proof.
  assert (succeeded_steps (calls (create_vm cfg (initial no_key_file)).2)
          = [1; 2; 3; 4; 5]%nat) as Hok by (vm_compute; reflexivity).
  assert (first_failed_step (calls (create_vm cfg (initial no_key_file)).2) = None)
    as Hnone by (vm_compute; reflexivity).
  split; [exact Hok|]. split; [exact Hnone|].
  exact (proj2 (proj2 (X3_unreadable_key_file_rolls_back cfg no_key_file Hok Hnone))).
Defined.

(** The VM step raises and the deletion of the NIC raises as well: the
    run still ends on the line announcing a complete rollback. *)
Lemma X4_witness :
  ∃ l, read_config (World := world) cfg = Ok l ∧
       calls (create_vm cfg (initial (failing_at_busy 6 ["nic"]))).2 ≠ [] ∧
       last (stdout (create_vm cfg (initial (failing_at_busy 6 ["nic"]))).2)
         = Some OutRollbackComplete.
Proof.
  eexists. split; [vm_compute; reflexivity|].
  assert (calls (create_vm cfg (initial (failing_at_busy 6 ["nic"]))).2 ≠ [])
    as Hcalls by (vm_compute; discriminate).
  split; [exact Hcalls|].
  assert ((create_vm cfg (initial (failing_at_busy 6 ["nic"]))).1 = Raise quota)
    as Hres by (vm_compute; reflexivity).
  pose proof (X4_last_line_printed cfg (failing_at_busy 6 ["nic"]) _
                ltac:(vm_compute; reflexivity) Hcalls) as Hlast.
  rewrite Hres in Hlast. exact (proj1 Hlast).
Defined.

Lemma X6_witness :
  Forall (λ path, is_Some (get_path cfg path)) required_fields ∧
  (∃ p, get_path cfg ["vm"; "ssh_public_key_path"] = Some (JStr p)) ∧
  head (stdout (create_vm cfg (initial all_fine)).2)
    = Some (OutStarting (JStr "vm1") (JStr "eastus")).
Proof.
  assert (Forall (λ path, is_Some (get_path cfg path)) required_fields) as Hall.
  { unfold required_fields. repeat constructor; vm_compute; eexists; reflexivity. }
  assert (∃ p, get_path cfg ["vm"; "ssh_public_key_path"] = Some (JStr p)) as Hkey.
  { eexists. vm_compute. reflexivity. }
  split; [exact Hall|]. split; [exact Hkey|].
  destruct (X6_complete_configuration_reaches_the_cloud cfg all_fine Hall Hkey)
    as (vm & rg & loc & Hvm & _ & Hloc & Hhead & _).
  vm_compute in Hvm, Hloc. injection Hvm as <-. injection Hloc as <-. exact Hhead.
Defined.

Lemma X7_witness :
  ∃ l, read_config (World := world) cfg = Ok l ∧
       Forall (λ ev, request_resource_group ev.1 = VJson (resource_group l))
              (calls (create_vm cfg (initial (failing_at 5))).2).
Proof.
  eexists. split; [vm_compute; reflexivity|].
  apply (X7_every_call_in_the_configured_resource_group cfg (failing_at 5)).
  vm_compute. reflexivity.
Defined.

(** [Sim.cfg] is complete for [create_vm] and has no [azure] section. *)
Lemma X8_witness :
  get_path cfg ["azure"; "subscription_id"] = None ∧
  ∃ e, stop_vm cfg (PowerSim.start (PowerSim.MkWorld false))
         = (Raise e, PowerSim.start (PowerSim.MkWorld false))
       ∧ deallocate_vm cfg (PowerSim.start (PowerSim.MkWorld false))
         = (Raise e, PowerSim.start (PowerSim.MkWorld false)).
Proof.
  assert (get_path cfg ["azure"; "subscription_id"] = None) as Hnone
    by (vm_compute; reflexivity).
  split; [exact Hnone|].
  exact (X8_stop_needs_the_azure_section cfg
           (PowerSim.start (PowerSim.MkWorld false)) Hnone).
Defined.

End MoreRuns.

Section MenuRuns.
Import ConsoleSim.

(** The line typed is 3 and the configuration names the group [rg1]. *)
Lemma X11_witness :
  ∃ res,
    service_calls
      (interactive_creation
         (JObj {["resource_group" := JObj {["name" := JStr "rg1"]}]})
         (start (MkWorld ["3"] None false))).2
    = [(DeleteResourceGroup (JStr "rg1") (JObj ∅), res)].
Proof.
  destruct (X11_choices_2_and_3_delete_the_resource_group
              {["resource_group" := JObj {["name" := JStr "rg1"]}]}
              {["name" := JStr "rg1"]}
              (start (MkWorld ["3"] None false)) "3" (MkWorld [] None false))
    as (res & Hcalls & _).
  - vm_compute. reflexivity.
  - right. vm_compute. reflexivity.
  - vm_compute. reflexivity.
  - exists res. exact Hcalls.
Defined.

(** An empty line is typed and the configuration is an empty dict. *)
Lemma X12_witness :
  ∃ res,
    service_calls (interactive_creation (JObj ∅) (start (MkWorld [EmptyString] None false))).2
    = [(CreateResourceGroup JNull (JStr "eastus") (JObj ∅), res)].
Proof.
  destruct (X12_choice_1_creates_the_resource_group ∅ ∅
              (start (MkWorld [EmptyString] None false)) EmptyString
              (MkWorld [] None false))
    as (res & Hcalls & _).
  - vm_compute. reflexivity.
  - vm_compute. reflexivity.
  - vm_compute. reflexivity.
  - exists res. exact Hcalls.
Defined.

(** The line typed is 99, "Delete all". *)
Lemma X13_witness :
  (interactive_creation Sim.cfg (start (MkWorld ["99"] None false))).1
    = Returned PyNone ∧
  service_calls (interactive_creation Sim.cfg (start (MkWorld ["99"] None false))).2 = [].
Proof.
  destruct (X13_other_service_choices_do_nothing Sim.cfg
              (start (MkWorld ["99"] None false)) "99" (MkWorld [] None false))
    as (Hres & Hcalls & _).
  - vm_compute. reflexivity.
  - vm_compute. repeat (apply not_elem_of_cons; split; [discriminate|]).
    apply not_elem_of_nil.
  - split; [exact Hres|exact Hcalls].
Defined.

(** The line typed is 2, "my-llm". *)
Lemma X14_witness :
  (interactive_menu (start (MkWorld ["2"] None false))).1 = Returned PyNone ∧
  service_calls (interactive_menu (start (MkWorld ["2"] None false))).2 = [].
Proof.
  destruct (X14_other_project_choices_do_nothing
              (start (MkWorld ["2"] None false)) "2" (MkWorld [] None false))
    as (Hres & Hcalls & _).
  - vm_compute. reflexivity.
  - vm_compute. discriminate.
  - split; [exact Hres|exact Hcalls].
Defined.

(** The project 1 is chosen and there is no configuration file. *)
Lemma X16_witness :
  (main (start (MkWorld ["1"; "1"; "1"] None false))).1
    = Failed (FileNotFoundError "/app/cfg/config_mymlops_dev.json") ∧
  inputs_read (main (start (MkWorld ["1"; "1"; "1"] None false))).2 = ["1"].
Proof.
  destruct (X16_missing_configuration_file
              (start (MkWorld ["1"; "1"; "1"] None false)) "1"
              (MkWorld ["1"; "1"] None false))
    as (Hres & _ & Hread & _).
  - vm_compute. reflexivity.
  - vm_compute. reflexivity.
  - vm_compute. reflexivity.
  - split; [exact Hres|exact Hread].
Defined.

End MenuRuns.
